(** * The avatar scene generator, [apps/bridge/scripts/generate_avatar.py]

    A shallow embedding of the script that turns a JSON parameter document
    into a Blender scene and saves it, together with the properties its
    specification states about it.

    The script is dynamically typed and drives an engine with a global
    "active object".  The embedding keeps both: parameters are Python values
    as [json.loads] returns them, subscripting and attribute access can raise,
    and every engine operation threads the engine's data explicitly.

    The two small source cleaners that stand beside the bridge,
    [apps/bridge/remove_inline_routes.py] and [apps/bridge/clean_comments.py],
    are embedded after the generator: texts are strings, files a finite map
    from paths to texts. *)

From Stdlib Require Import ZArith.
From Stdlib Require Import Floats.PrimFloat Floats.SpecFloat Floats.FloatOps.
From stdpp Require Import base strings list gmap option pretty.

Set Warnings "-register-all,-inexact-float".
Open Scope Z_scope.

(** ** Python values and the builtins the script uses *)

Module Py.

(** What [json.loads] can return ([None], [bool], [int], [float], [str],
    [list], [dict]) plus the tuples the script builds itself.  A [dict] is
    kept as the list of its items; [assoc] reads the first item with a
    given key.  Strings are taken to be ASCII. *)
Inductive value : Type :=
| PNone
| PBool (b : bool)
| PInt (z : Z)
| PFloat (f : float)
| PStr (s : string)
| PList (l : list value)
| PTuple (l : list value)
| PDict (items : list (string * value)).

Inductive exn : Type :=
| KeyError (key : string)
| TypeError
| AttributeError
| OverflowError
| ReferenceError
| SystemExit (code : Z).

Inductive res (A : Type) : Type :=
| Val (a : A)
| Exn (e : exn).
Arguments Val {A} a.
Arguments Exn {A} e.

Fixpoint assoc (k : string) (items : list (string * value)) : option value :=
  match items with
  | [] => None
  | (k', v) :: rest => if String.eqb k k' then Some v else assoc k rest
  end.

(** [v[k]] for a string key [k]. *)
Definition getitem (v : value) (k : string) : res value :=
  match v with
  | PDict items =>
      match assoc k items with
      | Some x => Val x
      | None => Exn (KeyError k)
      end
  | _ => Exn TypeError
  end.

(** [bool(v)], the test of an [if v:]. *)
Definition truthy (v : value) : bool :=
  match v with
  | PNone => false
  | PBool b => b
  | PInt z => negb (z =? 0)
  | PFloat f => negb (PrimFloat.eqb f 0)
  | PStr s => negb (String.eqb s EmptyString)
  | PList l | PTuple l => negb (Nat.eqb (length l) 0)
  | PDict items => negb (Nat.eqb (length items) 0)
  end.

(** [v == 'lit'] for a string literal. *)
Definition eq_str (v : value) (lit : string) : bool :=
  match v with
  | PStr s => String.eqb s lit
  | _ => false
  end.

Fixpoint chars (s : string) : list value :=
  match s with
  | EmptyString => []
  | String c rest => PStr (String c EmptyString) :: chars rest
  end.

(** The items produced by iterating [v] (a [for] clause, a starred
    expression). *)
Definition iter (v : value) : res (list value) :=
  match v with
  | PList l | PTuple l => Val l
  | PStr s => Val (chars s)
  | PDict items => Val (map (fun kv => PStr (fst kv)) items)
  | _ => Exn TypeError
  end.

(** [float(z)] for an [int]: round to nearest even. *)
Definition float_of_int (z : Z) : float :=
  SF2Prim (binary_normalize prec emax z 0 false).

(** [math.pi / 180.0], the constant [math.radians] multiplies by. *)
Definition degToRad : float := (0x1.921fb54442d18p+1 / 180)%float.

Definition radians_int (z : Z) : res float :=
  let x := float_of_int z in
  if PrimFloat.is_infinity x then Exn OverflowError
  else Val (x * degToRad)%float.

(** [math.radians(v)]. *)
Definition radians (v : value) : res float :=
  match v with
  | PFloat x => Val (x * degToRad)%float
  | PInt z => radians_int z
  | PBool b => radians_int (if b then 1 else 0)
  | _ => Exn TypeError
  end.

(** [[math.radians(x) for x in l]], left to right. *)
Fixpoint radians_each (l : list value) : res (list value) :=
  match l with
  | [] => Val []
  | x :: rest =>
      match radians x with
      | Exn e => Exn e
      | Val r =>
          match radians_each rest with
          | Exn e => Exn e
          | Val rs => Val (PFloat r :: rs)
          end
      end
  end.

End Py.

(** ** The engine's data

    The host engine ([bpy]) is not part of the repository.  The model records
    what the script asks of it: which objects and materials exist, what was
    assigned to which attribute, which object is active, and which files were
    saved.  An attribute the script never assigned is [None] here (the engine
    keeps its own default).  The engine's validation of the values it is
    handed is outside the script, so values are stored as given.  Python
    references to engine objects are positions in the owning collection. *)

Module Bpy.
Import Py.

Record Node : Type := mkNode {
  bl_idname : string;
  (** [inputs[socket].default_value], for the sockets assigned so far *)
  default_values : gmap string value
}.

Record Link : Type := mkLink {
  from_node : nat; from_socket : string;
  to_node : nat; to_socket : string
}.

Record Material : Type := mkMaterial {
  mat_name : string;
  use_nodes : bool;
  nodes : list Node;
  links : list Link
}.

Record ParticleSettings : Type := mkParticleSettings {
  count : option value;
  frame_start : option value;
  frame_end : option value;
  lifetime : option value;
  physics_type : option value;
  render_type : option value;
  instance_object : option nat
}.

Inductive Modifier : Type :=
| Subsurf (name : string) (levels : option value)
| Wireframe (name : string) (thickness : option value)
| ParticleSystem (name : string) (settings : ParticleSettings).

Inductive Primitive : Type :=
| IcoSphere (subdivisions radius : option value)
| Torus
| Cube
| UVSphere
| Plane (size : option value).

(** An object and its data block ([obj.data]) are kept together. *)
Inductive ObData : Type :=
| Mesh (prim : Primitive) (mesh_materials : list nat)
| Light (kind : string) (energy color : option value)
| Camera.

Record Object : Type := mkObject {
  data : ObData;
  location : option value;
  rotation_euler : option value;
  scale : option value;
  modifiers : list Modifier;
  hide_render : bool;
  select : bool
}.

Record RenderSettings : Type := mkRender {
  engine : string;
  samples : Z;
  resolution_x : Z;
  resolution_y : Z;
  film_transparent : bool
}.

(** [bpy.data] and [bpy.context] of the running engine. *)
Record Blend : Type := mkBlend {
  objects : list Object;
  materials : list Material;
  active_object : option nat;
  scene_camera : option nat;
  render : RenderSettings
}.

(** The process as seen from outside: the engine, what was printed, and
    the saved files (path to saved content). *)
Record World : Type := mkWorld {
  blend : Blend;
  stdout : list string;
  files : gmap string Blend
}.

(** *** Running the script: state and exceptions *)

Inductive outcome (A : Type) : Type :=
| Done (a : A) (w : World)
| Raised (e : exn) (w : World).
Arguments Done {A} a w.
Arguments Raised {A} e w.

Definition M (A : Type) : Type := World -> outcome A.

Definition ret {A} (a : A) : M A := fun w => Done a w.

Definition bind {A B} (m : M A) (k : A -> M B) : M B :=
  fun w =>
    match m w with
    | Done a w' => k a w'
    | Raised e w' => Raised e w'
    end.

Definition raise {A} (e : exn) : M A := fun w => Raised e w.

Definition lift {A} (r : res A) : M A :=
  match r with
  | Val a => ret a
  | Exn e => raise e
  end.

Definition final {A} (o : outcome A) : World :=
  match o with
  | Done _ w | Raised _ w => w
  end.

(** [x <- e ;; k]: run [e], stop at the first exception. *)
Notation "x <- e ;; k" := (bind e (fun x => k))
  (at level 100, e at next level, right associativity).
Notation "e ;; k" := (bind e (fun _ => k))
  (at level 100, right associativity).

Definition get_blend : M Blend := fun w => Done (blend w) w.

Definition put_blend (b : Blend) : M unit :=
  fun w => Done tt (mkWorld b (stdout w) (files w)).

(** [print(line)] *)
Definition print (line : string) : M unit :=
  fun w => Done tt (mkWorld (blend w) (stdout w ++ [line]) (files w)).

(** *** Records updated in one field *)

Definition set_objects (os : list Object) (b : Blend) : Blend :=
  mkBlend os (materials b) (active_object b) (scene_camera b) (render b).

Definition set_materials (ms : list Material) (b : Blend) : Blend :=
  mkBlend (objects b) ms (active_object b) (scene_camera b) (render b).

Definition set_active (a : option nat) (b : Blend) : Blend :=
  mkBlend (objects b) (materials b) a (scene_camera b) (render b).

Definition set_camera (c : option nat) (b : Blend) : Blend :=
  mkBlend (objects b) (materials b) (active_object b) c (render b).

Definition set_render (r : RenderSettings) (b : Blend) : Blend :=
  mkBlend (objects b) (materials b) (active_object b) (scene_camera b) r.

Definition set_select (s : bool) (o : Object) : Object :=
  mkObject (data o) (location o) (rotation_euler o) (scale o) (modifiers o)
    (hide_render o) s.

Definition set_data (d : ObData) (o : Object) : Object :=
  mkObject d (location o) (rotation_euler o) (scale o) (modifiers o)
    (hide_render o) (select o).

Definition set_rotation_euler (v : value) (o : Object) : Object :=
  mkObject (data o) (location o) (Some v) (scale o) (modifiers o)
    (hide_render o) (select o).

Definition set_scale (v : value) (o : Object) : Object :=
  mkObject (data o) (location o) (rotation_euler o) (Some v) (modifiers o)
    (hide_render o) (select o).

Definition set_modifiers (ms : list Modifier) (o : Object) : Object :=
  mkObject (data o) (location o) (rotation_euler o) (scale o) ms
    (hide_render o) (select o).

Definition set_hide_render (h : bool) (o : Object) : Object :=
  mkObject (data o) (location o) (rotation_euler o) (scale o) (modifiers o)
    h (select o).

(** *** Access through a reference

    A Python variable bound to [bpy.context.active_object] holds an object
    or [None].  Any attribute access on [None] raises [AttributeError]; a
    reference to an object that is gone raises [ReferenceError]. *)

Definition read_object (r : option nat) : M Object :=
  match r with
  | None => raise AttributeError
  | Some i =>
      b <- get_blend ;;
      match objects b !! i with
      | Some o => ret o
      | None => raise ReferenceError
      end
  end.

Definition update_object (r : option nat) (f : Object -> res Object) : M unit :=
  o <- read_object r ;;
  o' <- lift (f o) ;;
  b <- get_blend ;;
  match r with
  | Some i => put_blend (set_objects (<[i := o']> (objects b)) b)
  | None => raise AttributeError
  end.

Definition read_material (m : nat) : M Material :=
  b <- get_blend ;;
  match materials b !! m with
  | Some x => ret x
  | None => raise ReferenceError
  end.

Definition update_material (m : nat) (f : Material -> res Material) : M unit :=
  x <- read_material m ;;
  x' <- lift (f x) ;;
  b <- get_blend ;;
  put_blend (set_materials (<[m := x']> (materials b)) b).

(** *** Objects: selection, deletion, creation *)

(** [bpy.ops.object.select_all(action='SELECT')].  The objects of the
    model are those the view layer shows and lets select, and the operator
    selects each of them; an object hidden from the view layer, which the
    engine's operator passes over, is outside the model. *)
Definition ops_object_select_all : M unit :=
  b <- get_blend ;;
  put_blend (set_objects (map (set_select true) (objects b)) b).

Definition kept (o : Object) : bool := negb (select o).

(** Where the object at position [i] ends up once the selected objects are
    removed; [None] if it is removed itself. *)
Definition remap (os : list Object) (i : nat) : option nat :=
  match os !! i with
  | Some o =>
      if select o then None
      else Some (length (List.filter kept (take i os)))
  | None => None
  end.

Definition remap_modifier (os : list Object) (m : Modifier) : Modifier :=
  match m with
  | ParticleSystem n s =>
      ParticleSystem n
        (mkParticleSettings (count s) (frame_start s) (frame_end s)
           (lifetime s) (physics_type s) (render_type s)
           (instance_object s ≫= remap os))
  | _ => m
  end.

(** [bpy.ops.object.delete()]: the selected objects are removed; the active
    object and the scene camera are cleared if they were among them. *)
Definition ops_object_delete : M unit :=
  b <- get_blend ;;
  let os := objects b in
  let survivor o := set_modifiers (map (remap_modifier os) (modifiers o)) o in
  put_blend
    (mkBlend (map survivor (List.filter kept os)) (materials b)
       (active_object b ≫= remap os) (scene_camera b ≫= remap os) (render b)).

(** Every [..._add] operator: the new object is appended, becomes the only
    selected object and the active one. *)
Definition add_object (d : ObData) (loc : option value) : M unit :=
  b <- get_blend ;;
  let os := map (set_select false) (objects b) in
  put_blend
    (set_active (Some (length os))
       (set_objects (os ++ [mkObject d loc None None [] false true]) b)).

Definition ops_mesh_primitive_ico_sphere_add
    (subdivisions radius : option value) : M unit :=
  add_object (Mesh (IcoSphere subdivisions radius) []) None.

Definition ops_mesh_primitive_torus_add : M unit :=
  add_object (Mesh Torus []) None.

Definition ops_mesh_primitive_cube_add : M unit :=
  add_object (Mesh Cube []) None.

Definition ops_mesh_primitive_uv_sphere_add : M unit :=
  add_object (Mesh UVSphere []) None.

Definition ops_mesh_primitive_plane_add (size loc : value) : M unit :=
  add_object (Mesh (Plane (Some size)) []) (Some loc).

Definition ops_object_light_add (kind : string) (loc : value) : M unit :=
  add_object (Light kind None None) (Some loc).

Definition ops_object_camera_add (loc : value) : M unit :=
  add_object Camera (Some loc).

(** [bpy.context.active_object], also [bpy.context.object] *)
Definition context_active_object : M (option nat) :=
  b <- get_blend ;; ret (active_object b).

(** *** Modifiers *)

Definition modifier_name (m : Modifier) : string :=
  match m with
  | Subsurf n _ | Wireframe n _ | ParticleSystem n _ => n
  end.

Definition fresh_modifier (name type : string) : res Modifier :=
  if String.eqb type "SUBSURF" then Val (Subsurf name None)
  else if String.eqb type "WIREFRAME" then Val (Wireframe name None)
  else if String.eqb type "PARTICLE_SYSTEM" then
    Val (ParticleSystem name
           (mkParticleSettings None None None None None None None))
  else Exn TypeError.

(** [r.modifiers.new(name, type)]; the result is the new modifier's
    position in [r.modifiers]. *)
Definition modifiers_new (r : option nat) (name type : string) : M nat :=
  o <- read_object r ;;
  m <- lift (fresh_modifier name type) ;;
  update_object r (fun o => Val (set_modifiers (modifiers o ++ [m]) o)) ;;
  ret (length (modifiers o)).

Fixpoint find_modifier (name : string) (ms : list Modifier) : option nat :=
  match ms with
  | [] => None
  | m :: rest =>
      if String.eqb (modifier_name m) name then Some O
      else S <$> find_modifier name rest
  end.

(** [r.modifiers[name]] *)
Definition modifiers_getitem (r : option nat) (name : string) : M nat :=
  o <- read_object r ;;
  match find_modifier name (modifiers o) with
  | Some i => ret i
  | None => raise (KeyError name)
  end.

Definition update_modifier (r : option nat) (i : nat)
    (f : Modifier -> res Modifier) : M unit :=
  update_object r (fun o =>
    match modifiers o !! i with
    | None => Exn ReferenceError
    | Some m =>
        match f m with
        | Val m' => Val (set_modifiers (<[i := m']> (modifiers o)) o)
        | Exn e => Exn e
        end
    end).

(** [mod.levels = v] *)
Definition set_levels (v : value) (m : Modifier) : res Modifier :=
  match m with
  | Subsurf n _ => Val (Subsurf n (Some v))
  | _ => Exn AttributeError
  end.

(** [mod.thickness = v] *)
Definition set_thickness (v : value) (m : Modifier) : res Modifier :=
  match m with
  | Wireframe n _ => Val (Wireframe n (Some v))
  | _ => Exn AttributeError
  end.

(** [mod.particle_system.settings.<field> = ...] *)
Definition set_settings (f : ParticleSettings -> ParticleSettings)
    (m : Modifier) : res Modifier :=
  match m with
  | ParticleSystem n s => Val (ParticleSystem n (f s))
  | _ => Exn AttributeError
  end.

Definition set_count (v : value) (s : ParticleSettings) : ParticleSettings :=
  mkParticleSettings (Some v) (frame_start s) (frame_end s) (lifetime s)
    (physics_type s) (render_type s) (instance_object s).

Definition set_frame_start (v : value) (s : ParticleSettings) : ParticleSettings :=
  mkParticleSettings (count s) (Some v) (frame_end s) (lifetime s)
    (physics_type s) (render_type s) (instance_object s).

Definition set_frame_end (v : value) (s : ParticleSettings) : ParticleSettings :=
  mkParticleSettings (count s) (frame_start s) (Some v) (lifetime s)
    (physics_type s) (render_type s) (instance_object s).

Definition set_lifetime (v : value) (s : ParticleSettings) : ParticleSettings :=
  mkParticleSettings (count s) (frame_start s) (frame_end s) (Some v)
    (physics_type s) (render_type s) (instance_object s).

Definition set_physics_type (v : value) (s : ParticleSettings) : ParticleSettings :=
  mkParticleSettings (count s) (frame_start s) (frame_end s) (lifetime s)
    (Some v) (render_type s) (instance_object s).

Definition set_render_type (v : value) (s : ParticleSettings) : ParticleSettings :=
  mkParticleSettings (count s) (frame_start s) (frame_end s) (lifetime s)
    (physics_type s) (Some v) (instance_object s).

Definition set_instance_object (r : option nat) (s : ParticleSettings)
    : ParticleSettings :=
  mkParticleSettings (count s) (frame_start s) (frame_end s) (lifetime s)
    (physics_type s) (render_type s) r.

(** *** Object data *)

(** [r.data.energy = v] *)
Definition set_energy (v : value) (o : Object) : res Object :=
  match data o with
  | Light k _ c => Val (set_data (Light k (Some v) c) o)
  | _ => Exn AttributeError
  end.

(** [r.data.color = v] *)
Definition set_color (v : value) (o : Object) : res Object :=
  match data o with
  | Light k e _ => Val (set_data (Light k e (Some v)) o)
  | _ => Exn AttributeError
  end.

(** [r.data.materials.append(m)] *)
Definition materials_append (m : nat) (o : Object) : res Object :=
  match data o with
  | Mesh p ms => Val (set_data (Mesh p (ms ++ [m])) o)
  | _ => Exn AttributeError
  end.

(** *** Materials and their node trees *)

(** [bpy.data.materials.new(name=...)] *)
Definition data_materials_new (name : string) : M nat :=
  b <- get_blend ;;
  put_blend (set_materials (materials b ++ [mkMaterial name false [] []]) b) ;;
  ret (length (materials b)).

(** [mat.use_nodes = True]: a material without a node tree gets the
    engine's default one, a shader wired to an output. *)
Definition enable_nodes (x : Material) : res Material :=
  if use_nodes x then Val x
  else Val (mkMaterial (mat_name x) true
              [mkNode "ShaderNodeBsdfPrincipled" ∅;
               mkNode "ShaderNodeOutputMaterial" ∅]
              [mkLink 0 "BSDF" 1 "Surface"]).

(** [nodes.clear()]; a link goes with its nodes. *)
Definition nodes_clear (x : Material) : res Material :=
  Val (mkMaterial (mat_name x) (use_nodes x) [] []).

(** [nodes.new(type=...)] on material [m]; the result is the node's
    position. *)
Definition nodes_new (m : nat) (type : string) : M nat :=
  x <- read_material m ;;
  update_material m (fun x =>
    Val (mkMaterial (mat_name x) (use_nodes x)
           (nodes x ++ [mkNode type ∅]) (links x))) ;;
  ret (length (nodes x)).

(** [links.new(a.outputs[sa], b.inputs[sb])] *)
Definition links_new (a : nat) (sa : string) (b : nat) (sb : string)
    (x : Material) : res Material :=
  Val (mkMaterial (mat_name x) (use_nodes x) (nodes x)
         (links x ++ [mkLink a sa b sb])).

(** [n.inputs[socket].default_value = v] *)
Definition set_default_value (n : nat) (socket : string) (v : value)
    (x : Material) : res Material :=
  match nodes x !! n with
  | None => Exn ReferenceError
  | Some nd =>
      let nd' := mkNode (bl_idname nd) (<[socket := v]> (default_values nd)) in
      Val (mkMaterial (mat_name x) (use_nodes x) (<[n := nd']> (nodes x))
             (links x))
  end.

(** *** Scene, render settings, saving *)

(** [bpy.context.scene.camera = r] *)
Definition set_scene_camera (r : option nat) : M unit :=
  b <- get_blend ;; put_blend (set_camera r b).

Definition update_render (f : RenderSettings -> RenderSettings) : M unit :=
  b <- get_blend ;; put_blend (set_render (f (render b)) b).

Definition set_engine (e : string) (r : RenderSettings) : RenderSettings :=
  mkRender e (samples r) (resolution_x r) (resolution_y r) (film_transparent r).

Definition set_samples (n : Z) (r : RenderSettings) : RenderSettings :=
  mkRender (engine r) n (resolution_x r) (resolution_y r) (film_transparent r).

Definition set_resolution_x (n : Z) (r : RenderSettings) : RenderSettings :=
  mkRender (engine r) (samples r) n (resolution_y r) (film_transparent r).

Definition set_resolution_y (n : Z) (r : RenderSettings) : RenderSettings :=
  mkRender (engine r) (samples r) (resolution_x r) n (film_transparent r).

Definition set_film_transparent (t : bool) (r : RenderSettings) : RenderSettings :=
  mkRender (engine r) (samples r) (resolution_x r) (resolution_y r) t.

(** [bpy.ops.wm.save_as_mainfile(filepath=path)]: the model records, under
    the path, the engine's data as it is handed to the writer, replacing
    what was recorded there.  What the engine's writer makes of it is its
    own business: it leaves out data that has no user, and it reports the
    save on the engine's own output.  The properties below that speak of a
    saved file say that one was written, not what the writer put in it. *)
Definition ops_wm_save_as_mainfile (path : string) : M unit :=
  fun w => Done tt (mkWorld (blend w) (stdout w) (<[path := blend w]> (files w))).

End Bpy.

(** ** The script *)

Import Py Bpy.

(** [clean_scene] (lines 8-10) *)
Definition clean_scene : M unit :=
  ops_object_select_all ;;
  ops_object_delete.

(** [create_material] (lines 12-40).  [params['type']] is read again by
    each [elif], as in the source; an assignment evaluates its right-hand
    side before its target. *)
Definition create_material (params : value) : M nat :=
  mat <- data_materials_new "AvatarMaterial" ;;
  update_material mat enable_nodes ;;
  update_material mat nodes_clear ;;
  output <- nodes_new mat "ShaderNodeOutputMaterial" ;;
  shader <- nodes_new mat "ShaderNodeBsdfPrincipled" ;;
  update_material mat (links_new shader "BSDF" output "Surface") ;;
  color <- lift (getitem params "color") ;;
  update_material mat (set_default_value shader "Base Color" color) ;;
  roughness <- lift (getitem params "roughness") ;;
  update_material mat (set_default_value shader "Roughness" roughness) ;;
  t1 <- lift (getitem params "type") ;;
  (if eq_str t1 "metallic" then
     update_material mat (set_default_value shader "Metallic" (PFloat 1.0))
   else
     t2 <- lift (getitem params "type") ;;
     if eq_str t2 "glass" then
       update_material mat (set_default_value shader "Transmission" (PFloat 1.0)) ;;
       update_material mat (set_default_value shader "Roughness" (PFloat 0.0))
     else
       t3 <- lift (getitem params "type") ;;
       if eq_str t3 "emissive" then
         update_material mat (set_default_value shader "Emission" color) ;;
         update_material mat
           (set_default_value shader "Emission Strength" (PFloat 5.0))
       else ret tt) ;;
  ret mat.

(** [create_geometry] (lines 42-67).  [obj] is whatever object is active
    after the branch on the type: the new primitive, or what was active
    before when no branch was taken. *)
Definition create_geometry (params : value) (material : nat) : M (option nat) :=
  geo_type <- lift (getitem params "type") ;;
  (if eq_str geo_type "icosahedron" then
     subdivisions <- lift (getitem params "subdivisions") ;;
     ops_mesh_primitive_ico_sphere_add (Some subdivisions) None
   else if eq_str geo_type "torus" then
     ops_mesh_primitive_torus_add
   else if eq_str geo_type "cube" then
     ops_mesh_primitive_cube_add ;;
     cube <- context_active_object ;;
     modifiers_new cube "Subsurf" "SUBSURF" ;;
     subdivisions <- lift (getitem params "subdivisions") ;;
     cube <- context_active_object ;;
     subsurf <- modifiers_getitem cube "Subsurf" ;;
     update_modifier cube subsurf (set_levels subdivisions)
   else if eq_str geo_type "sphere" then
     ops_mesh_primitive_uv_sphere_add
   else ret tt) ;;
  obj <- context_active_object ;;
  wireframe <- lift (getitem params "wireframe") ;;
  (if truthy wireframe then
     md <- modifiers_new obj "Wireframe" "WIREFRAME" ;;
     update_modifier obj md (set_thickness (PFloat 0.02))
   else ret tt) ;;
  match obj with
  | Some _ => update_object obj (materials_append material)
  | None => ret tt
  end ;;
  ret obj.

(** [setup_lighting] (lines 69-85) *)
Definition setup_lighting : M unit :=
  ops_object_light_add "AREA" (PTuple [PInt 5; PInt 5; PInt 5]) ;;
  light <- context_active_object ;;
  update_object light (set_energy (PInt 500)) ;;
  ops_object_light_add "POINT" (PTuple [PInt (-5); PInt (-5); PInt 2]) ;;
  light <- context_active_object ;;
  update_object light (set_energy (PInt 200)) ;;
  update_object light (set_color (PTuple [PFloat 0.0; PFloat 0.5; PFloat 1.0])) ;;
  ops_object_light_add "SPOT" (PTuple [PInt 0; PInt 5; PInt (-5)]) ;;
  light <- context_active_object ;;
  update_object light (set_energy (PInt 1000)) ;;
  angle <- lift (radians (PInt 135)) ;;
  update_object light (fun o =>
    Val (set_rotation_euler (PTuple [PFloat angle; PInt 0; PInt 0]) o)).

(** [setup_camera] (lines 87-91) *)
Definition setup_camera : M unit :=
  ops_object_camera_add (PTuple [PInt 0; PInt (-8); PInt 4]) ;;
  cam <- context_active_object ;;
  angle <- lift (radians (PInt 60)) ;;
  update_object cam (fun o =>
    Val (set_rotation_euler (PTuple [PFloat angle; PInt 0; PInt 0]) o)) ;;
  set_scene_camera cam.

(** [create_particles] (lines 93-124) *)
Definition create_particles (params : value) : M unit :=
  ops_mesh_primitive_plane_add (PInt 10) (PTuple [PInt 0; PInt 0; PInt 0]) ;;
  emitter <- context_active_object ;;
  update_object emitter (fun o => Val (set_hide_render true o)) ;;
  psys <- modifiers_new emitter "Particles" "PARTICLE_SYSTEM" ;;
  particleCount <- lift (getitem params "particleCount") ;;
  update_modifier emitter psys (set_settings (set_count particleCount)) ;;
  update_modifier emitter psys (set_settings (set_frame_start (PInt 1))) ;;
  update_modifier emitter psys (set_settings (set_frame_end (PInt 1))) ;;
  update_modifier emitter psys (set_settings (set_lifetime (PInt 100))) ;;
  update_modifier emitter psys (set_settings (set_physics_type (PStr "NO"))) ;;
  ops_mesh_primitive_ico_sphere_add None (Some (PFloat 0.1)) ;;
  particle_obj <- context_active_object ;;
  update_object particle_obj (fun o => Val (set_hide_render true o)) ;;
  mat <- data_materials_new "ParticleMat" ;;
  update_material mat enable_nodes ;;
  update_material mat nodes_clear ;;
  out <- nodes_new mat "ShaderNodeOutputMaterial" ;;
  emit <- nodes_new mat "ShaderNodeEmission" ;;
  particleColor <- lift (getitem params "particleColor") ;;
  components <- lift (iter particleColor) ;;
  update_material mat
    (set_default_value emit "Color" (PTuple (components ++ [PFloat 1.0]))) ;;
  update_material mat (set_default_value emit "Strength" (PFloat 10.0)) ;;
  update_material mat (links_new emit "Emission" out "Surface") ;;
  update_object particle_obj (materials_append mat) ;;
  update_modifier emitter psys (set_settings (set_render_type (PStr "OBJECT"))) ;;
  update_modifier emitter psys (set_settings (set_instance_object particle_obj)).

(** The part of [main] that follows argument and JSON parsing (lines
    148-174, from "Setup Scene" to the save), which the specification calls
    [compose]. *)
Definition compose (params : value) (output : string) : M unit :=
  clean_scene ;;
  material <- lift (getitem params "material") ;;
  mat <- create_material material ;;
  geometry <- lift (getitem params "geometry") ;;
  obj <- create_geometry geometry mat ;;
  match obj with
  | Some _ =>
      transform <- lift (getitem params "transform") ;;
      rotation <- lift (getitem transform "rotation") ;;
      angles <- lift (iter rotation) ;;
      euler <- lift (radians_each angles) ;;
      update_object obj (fun o => Val (set_rotation_euler (PList euler) o)) ;;
      transform <- lift (getitem params "transform") ;;
      s <- lift (getitem transform "scale") ;;
      update_object obj (fun o => Val (set_scale (PTuple [s; s; s]) o))
  | None => ret tt
  end ;;
  setup_lighting ;;
  setup_camera ;;
  environment <- lift (getitem params "environment") ;;
  create_particles environment ;;
  update_render (set_engine "CYCLES") ;;
  update_render (set_samples 32) ;;
  update_render (set_resolution_x 1024) ;;
  update_render (set_resolution_y 1024) ;;
  update_render (set_film_transparent true) ;;
  ops_wm_save_as_mainfile output.

(** What [parser.parse_args] does with the arguments: a namespace with the
    two required strings, or an exit ([2] for a usage error, [0] after
    [--help]). *)
Inductive parsed : Type :=
| Namespace (output params : string)
| Exits (status : Z).

(** [argv.index("--")], for an [argv] that contains it *)
Fixpoint index (x : string) (argv : list string) : nat :=
  match argv with
  | [] => O
  | y :: rest => if String.eqb y x then O else S (index x rest)
  end.

Section Main.

(** [argparse] and [json] are Python's own libraries; [main] is stated for
    any behaviour of theirs.  [json_loads] is [None] where [json.loads]
    raises [JSONDecodeError]. *)
Variable parse_args : list string -> parsed.
Variable json_loads : string -> option value.

(** [main] (lines 126-174) *)
Definition main (argv : list string) : M unit :=
  if negb (existsb (String.eqb "--") argv) then
    print "No arguments passed after --"
  else
    let args := drop (S (index "--" argv)) argv in
    match parse_args args with
    | Exits status => raise (SystemExit status)
    | Namespace output params =>
        match json_loads params with
        | None =>
            print "Invalid JSON params" ;;
            raise (SystemExit 1)
        | Some params => compose params output
        end
    end.

End Main.

(** The status the process ends with, where the script decides it: [0]
    after a normal return, the argument of [sys.exit] otherwise.  After any
    other exception the status is the host's choice. *)
Definition exit_status {A} (o : outcome A) : option Z :=
  match o with
  | Done _ _ => Some 0
  | Raised (SystemExit n) _ => Some n
  | Raised _ _ => None
  end.

(** ** The parameter records of the specification *)

Inductive number : Type :=
| Int (z : Z)
| Float (f : float).

Definition py_number (n : number) : value :=
  match n with
  | Int z => PInt z
  | Float f => PFloat f
  end.

Record MaterialSpec : Type := mkMaterialSpec {
  m_color : number * number * number * number;
  m_roughness : number;
  m_type : string
}.

Record GeometrySpec : Type := mkGeometrySpec {
  g_type : string;
  g_subdivisions : N;
  g_wireframe : bool
}.

Record TransformSpec : Type := mkTransformSpec {
  t_rotation : number * number * number;
  t_scale : number
}.

Record EnvironmentSpec : Type := mkEnvironmentSpec {
  e_particleCount : N;
  e_particleColor : number * number * number
}.

Record AvatarSpec : Type := mkAvatarSpec {
  a_material : MaterialSpec;
  a_geometry : GeometrySpec;
  a_transform : TransformSpec;
  a_environment : EnvironmentSpec
}.

(** The JSON documents of these records, as [json.loads] returns them. *)

Definition py_vec3 (v : number * number * number) : value :=
  let '(x, y, z) := v in PList [py_number x; py_number y; py_number z].

Definition py_vec4 (v : number * number * number * number) : value :=
  let '(r, g, b, a) := v in
  PList [py_number r; py_number g; py_number b; py_number a].

Definition py_material (m : MaterialSpec) : value :=
  PDict [("color", py_vec4 (m_color m));
         ("roughness", py_number (m_roughness m));
         ("type", PStr (m_type m))].

Definition py_geometry (g : GeometrySpec) : value :=
  PDict [("type", PStr (g_type g));
         ("subdivisions", PInt (Z.of_N (g_subdivisions g)));
         ("wireframe", PBool (g_wireframe g))].

Definition py_transform (t : TransformSpec) : value :=
  PDict [("rotation", py_vec3 (t_rotation t));
         ("scale", py_number (t_scale t))].

Definition py_environment (e : EnvironmentSpec) : value :=
  PDict [("particleCount", PInt (Z.of_N (e_particleCount e)));
         ("particleColor", py_vec3 (e_particleColor e))].

Definition py_avatar (a : AvatarSpec) : value :=
  PDict [("material", py_material (a_material a));
         ("geometry", py_geometry (a_geometry a));
         ("transform", py_transform (a_transform a));
         ("environment", py_environment (a_environment a))].

(** ** Reading a finished scene *)

Definition is_principled (n : Node) : bool :=
  String.eqb (bl_idname n) "ShaderNodeBsdfPrincipled".

(** The value the script gave to [socket] of the material's principled
    shader, if it gave one. *)
Definition shader_input (x : Material) (socket : string) : option value :=
  List.find is_principled (nodes x) ≫= fun n => default_values n !! socket.

Definition is_subsurf (m : Modifier) : bool :=
  match m with
  | Subsurf _ _ => true
  | _ => false
  end.

(** The materials an object carries ([obj.data.materials]). *)
Definition object_materials (o : Object) : list nat :=
  match data o with
  | Mesh _ ms => ms
  | _ => []
  end.

Definition recognized (geo_type : string) : bool :=
  String.eqb geo_type "icosahedron" || String.eqb geo_type "torus"
  || String.eqb geo_type "cube" || String.eqb geo_type "sphere".

(** An engine with nothing in it. *)
Definition empty_world : World :=
  mkWorld (mkBlend [] [] None None (mkRender EmptyString 0 0 0 false)) [] ∅.


(** The modifier stack that [wireframe] adds to. *)
Definition wire (wireframe : bool) : list Modifier :=
  if wireframe then [Wireframe "Wireframe" (Some (PFloat 0.02))] else [].

(** [params] is a [dict] without the key [k]: [params[k]] raises
    [KeyError]. *)
Definition missing (k : string) (params : value) : Prop :=
  getitem params k = Exn (KeyError k).

(** Two outcomes with the same result, or the same exception, and the same
    engine data. *)
Definition same_engine {A} (o1 o2 : outcome A) : Prop :=
  match o1, o2 with
  | Done a1 w1, Done a2 w2 => a1 = a2 /\ blend w1 = blend w2
  | Raised e1 w1, Raised e2 w2 => e1 = e2 /\ blend w1 = blend w2
  | _, _ => False
  end.

(** [m] reads the engine's data and nothing else of the process: neither
    what was printed nor the files. *)
Definition engine_only {A} (m : M A) : Prop :=
  forall w1 w2, blend w1 = blend w2 -> same_engine (m w1) (m w2).

(** Two runs of [compose], one to [out1] and one to [out2]: the same
    exception with the same engine data, or the same scene, each run having
    written a file at its own path. *)
Definition same_content (out1 out2 : string) (o1 o2 : outcome unit) : Prop :=
  match o1, o2 with
  | Done _ w1, Done _ w2 =>
      blend w1 = blend w2 /\
      is_Some (files w1 !! out1) /\ is_Some (files w2 !! out2)
  | Raised e1 w1, Raised e2 w2 => e1 = e2 /\ blend w1 = blend w2
  | _, _ => False
  end.

(** [m] never writes a file, whether it returns or raises. *)
Definition silent {A} (m : M A) : Prop :=
  forall w, files (final (m w)) = files w.

(** If [m] raises, no file was written. *)
Definition quiet {A} (m : M A) : Prop :=
  forall w e w', m w = Raised e w' -> files w' = files w.

(** ** Sample inputs *)

(** The scenario of the specification: a red metallic sphere. *)
Definition red_sphere : AvatarSpec :=
  mkAvatarSpec
    (mkMaterialSpec (Int 1, Int 0, Int 0, Int 1) (Float 0.5) "metallic")
    (mkGeometrySpec "sphere" 0 false)
    (mkTransformSpec (Int 0, Int 0, Int 0) (Float 2.0))
    (mkEnvironmentSpec 50 (Int 0, Int 1, Int 1)).

(** An unknown geometry type, drawn as a wireframe. *)
Definition pyramid_wire : AvatarSpec :=
  mkAvatarSpec (a_material red_sphere) (mkGeometrySpec "pyramid" 0 true)
    (a_transform red_sphere) (a_environment red_sphere).

(** An unknown geometry type, not drawn as a wireframe. *)
Definition pyramid_plain : AvatarSpec :=
  mkAvatarSpec (a_material red_sphere) (mkGeometrySpec "pyramid" 0 false)
    (a_transform red_sphere) (a_environment red_sphere).

(** The same document, without its [transform]. *)
Definition no_transform : value :=
  PDict [("material", py_material (a_material pyramid_plain));
         ("geometry", py_geometry (a_geometry pyramid_plain));
         ("environment", py_environment (a_environment pyramid_plain))].

(** An argument parser and a decoder to run [main] with, on the argument
    vector [blender -- --output PATH --params TEXT]: they agree with
    [argparse] on that form, and with [json.loads] on the empty object and
    on the unfinished document [{]. *)
Definition parse_exact (args : list string) : parsed :=
  match args with
  | ["--output"; o; "--params"; p] => Namespace o p
  | _ => Exits 2
  end.

Definition loads_empty_object (text : string) : option value :=
  if String.eqb text "{}" then Some (PDict []) else None.

(** A wireframe modifier, as the wireframe branch leaves one. *)
Definition is_wireframe (m : Modifier) : bool :=
  match m with
  | Wireframe _ _ => true
  | _ => false
  end.

(** [params['transform']['rotation']] of a specification, as a list. *)
Definition rotation_list (a : AvatarSpec) : list number :=
  let '(x, y, z) := t_rotation (a_transform a) in [x; y; z].

(** A rotation component too large for a float. *)
Definition spinning_cube : AvatarSpec :=
  mkAvatarSpec (a_material red_sphere) (mkGeometrySpec "cube" 2 true)
    (mkTransformSpec (Int (2 ^ 1024), Int 0, Int 0) (Float 1.0))
    (a_environment red_sphere).

(** ** The two source cleaners, [apps/bridge/remove_inline_routes.py] and
    [apps/bridge/clean_comments.py]

    Two scripts of their own, both on the file [src/index.ts].  A file is
    its text as Python's text layer gives it: decoded, with every line end
    read as one newline character.  Strings are byte strings; the markers
    searched for are ASCII, and a UTF-8 text holds such a marker as a
    substring of characters exactly when its bytes hold the marker's
    bytes. *)

Module Text.

Definition newline : Ascii.ascii := Ascii.ascii_of_nat 10.

(** [marker in line] *)
Fixpoint contains (marker line : string) : bool :=
  String.prefix marker line ||
  match line with
  | EmptyString => false
  | String _ rest => contains marker rest
  end.

(** How a run ends: the files and what was printed, or the exception of
    [open] on a file that is not there. *)
Inductive outcome : Type :=
| Finished (files : gmap string string) (printed : list string)
| FileNotFoundError.

End Text.

(** *** The route remover

    It reads the lines of the file, drops the block that starts at a
    marker comment and ends before another, writes the file back and
    prints three counts. *)

Module Routes.

(** [f.readlines()]: the text cut after each newline; every line keeps its
    newline, and a text that does not end in a newline has a last line
    without one. *)
Fixpoint readlines (content : string) : list string :=
  match content with
  | EmptyString => []
  | String c rest =>
      if Ascii.eqb c Text.newline then String c EmptyString :: readlines rest
      else
        match readlines rest with
        | [] => [String c EmptyString]
        | line :: lines => String c line :: lines
        end
  end.

(** [f.writelines(lines)]: the lines one after the other, nothing added. *)
Definition writelines (lines : list string) : string :=
  foldr String.append EmptyString lines.

Definition skip_start_markers : list string :=
  ["// CSP Violation Report Endpoint"].

Definition skip_end_markers : list string :=
  ["// Helper function to log authentication actions"].

(** [any(marker in line for marker in markers)] *)
Definition any_in (markers : list string) (line : string) : bool :=
  existsb (fun marker => Text.contains marker line) markers.

(** One turn of the [for] loop (lines 22-40), on [skip_mode] and
    [output_lines]. *)
Definition step (state : bool * list string) (line : string)
    : bool * list string :=
  let '(skip_mode, output_lines) := state in
  if any_in skip_start_markers line then (true, output_lines)
  else if skip_mode && any_in skip_end_markers line then
    (false, output_lines ++ [line])
  else if skip_mode then (skip_mode, output_lines)
  else (skip_mode, output_lines ++ [line]).

(** [output_lines] after the loop. *)
Definition output_lines (lines : list string) : list string :=
  snd (fold_left step lines (false, [])).

Definition path : string := "src/index.ts".

(** The script (lines 5-48). *)
Definition remove_inline_routes (files : gmap string string)
    : Text.outcome :=
  match files !! path with
  | None => Text.FileNotFoundError
  | Some content =>
      let lines := readlines content in
      let kept := output_lines lines in
      let before := Z.of_nat (length lines) in
      let after := Z.of_nat (length kept) in
      Text.Finished (<[path := writelines kept]> files)
        ["Removed lines: " +:+ pretty (before - after);
         "Before: " +:+ pretty before +:+ " lines";
         "After: " +:+ pretty after +:+ " lines"]
  end.

(** The loop again, as a recursion on the lines still to read: what it
    appends to [output_lines] from the mode [skip_mode]. *)
Fixpoint scan (skip_mode : bool) (lines : list string) : list string :=
  match lines with
  | [] => []
  | line :: rest =>
      if any_in skip_start_markers line then scan true rest
      else if skip_mode && any_in skip_end_markers line then
        line :: scan false rest
      else if skip_mode then scan skip_mode rest
      else line :: scan skip_mode rest
  end.

(** The shape of what [readlines] returns: a line ends in its only
    newline, or it is the last one, not empty and without a newline. *)
Fixpoint ends_line (line : string) : bool :=
  match line with
  | EmptyString => false
  | String c rest =>
      if Ascii.eqb c Text.newline then
        match rest with EmptyString => true | String _ _ => false end
      else ends_line rest
  end.

Fixpoint open_line (line : string) : bool :=
  match line with
  | EmptyString => true
  | String c rest => negb (Ascii.eqb c Text.newline) && open_line rest
  end.

Definition is_empty {A : Type} (l : list A) : bool :=
  match l with [] => true | _ :: _ => false end.

Fixpoint well_formed (lines : list string) : bool :=
  match lines with
  | [] => true
  | line :: rest =>
      (ends_line line
       || (open_line line && negb (String.eqb line EmptyString)
           && is_empty rest))
      && well_formed rest
  end.

(** The text of the given lines, each ended by a newline. *)
Definition text (lines : list string) : string :=
  writelines (map (fun l => l +:+ String Text.newline EmptyString) lines).

End Routes.

(** *** The comment cleaner

    Three substitutions on the whole text, then the file is written back
    and four lines are printed. *)

Module Comments.

(** [re.sub(pattern, '', content, flags=re.DOTALL)] with the pattern of
    line 8: a slash and a star, the fewest characters of any kind, a star
    and a slash.  Matches are taken from left to right and do not overlap:
    a comment opens at a slash-star that has a star-slash somewhere after
    it, and runs to the first of those; the scan goes on behind it.  The
    modes are where the scan is: outside a comment, on the star that opens
    one, inside, and on the slash that closes it. *)
Inductive mode : Type := Outside | Opening | Inside | Closing.

Definition opens (s : string) : bool :=
  match s with
  | String _ (String _ rest) =>
      String.prefix "/*" s && Text.contains "*/" rest
  | _ => false
  end.

Fixpoint remove_blocks (m : mode) (s : string) : string :=
  match s with
  | EmptyString => EmptyString
  | String c rest =>
      match m with
      | Outside =>
          if opens s then remove_blocks Opening rest
          else String c (remove_blocks Outside rest)
      | Opening => remove_blocks Inside rest
      | Inside =>
          if String.prefix "*/" s then remove_blocks Closing rest
          else remove_blocks Inside rest
      | Closing => remove_blocks Outside rest
      end
  end.

(** The substitution of line 12: the marker, the fewest characters other
    than a newline, and a newline.  A match starts where the marker stands
    and a newline follows somewhere, and runs to the first newline. *)
Definition orphan_marker : string := "// END OF COMMENTED".

Fixpoint drop_orphans (dropping : bool) (s : string) : string :=
  match s with
  | EmptyString => EmptyString
  | String c rest =>
      if dropping then
        drop_orphans (negb (Ascii.eqb c Text.newline)) rest
      else if String.prefix orphan_marker s
              && Text.contains (String Text.newline EmptyString) s
      then drop_orphans true rest
      else String c (drop_orphans false rest)
  end.

(** The substitution of line 15: three newlines or more become two.  Of a
    run of newlines, each one that has two more behind it goes. *)
Definition blank_run : string :=
  String Text.newline (String Text.newline (String Text.newline EmptyString)).

Fixpoint collapse (s : string) : string :=
  match s with
  | EmptyString => EmptyString
  | String c rest =>
      if String.prefix blank_run s then collapse rest
      else String c (collapse rest)
  end.

(** [content.count(chr(10))] *)
Fixpoint count_newlines (content : string) : nat :=
  match content with
  | EmptyString => 0
  | String c rest =>
      (if Ascii.eqb c Text.newline then 1 else 0) + count_newlines rest
  end.

Definition cleaned (content : string) : string :=
  collapse (drop_orphans false (remove_blocks Outside content)).

Definition path : string := "src/index.ts".

(** The script (lines 3-24). *)
Definition clean_comments (files : gmap string string) : Text.outcome :=
  match files !! path with
  | None => Text.FileNotFoundError
  | Some content =>
      let content_cleaned := cleaned content in
      let before := Z.of_nat (count_newlines content) in
      let after := Z.of_nat (count_newlines content_cleaned) in
      Text.Finished (<[path := content_cleaned]> files)
        ["OK: Blocs commentes supprimes";
         "Lignes avant: " +:+ pretty before;
         "Lignes après: " +:+ pretty after;
         "Réduction: " +:+ pretty (before - after) +:+ " lignes"]
  end.

End Comments.

(** * Properties *)

(** ** Stores that grow at the end

    New objects and materials are appended, and a reference is a position,
    so a reference to something just created is the length of what was
    there before, plus a small offset. *)

Lemma lookup_snoc {A} (l : list A) (x : A) : (l ++ [x]) !! length l = Some x.
Proof. induction l; simpl; auto. Qed.

Lemma insert_snoc {A} (l : list A) (x y : A) :
  <[length l := y]> (l ++ [x]) = l ++ [y].
Proof. induction l; simpl; [reflexivity | f_equal; auto]. Qed.

Lemma lookup_snoc_at {A} (l : list A) (x : A) (n : nat) :
  n = length l -> (l ++ [x]) !! n = Some x.
Proof. intros ->. apply lookup_snoc. Qed.

Lemma lookup_past {A} (l xs : list A) (k : nat) :
  (l ++ xs) !! (length l + k)%nat = xs !! k.
Proof. induction l; simpl; auto. Qed.

Lemma insert_past {A} (l xs : list A) (k : nat) (y : A) :
  <[(length l + k)%nat := y]> (l ++ xs) = l ++ <[k := y]> xs.
Proof. induction l; simpl; [reflexivity | f_equal; auto]. Qed.

Lemma read_material_snoc os ms x a c r so fs :
  read_material (length ms) (mkWorld (mkBlend os (ms ++ [x]) a c r) so fs)
  = Done x (mkWorld (mkBlend os (ms ++ [x]) a c r) so fs).
Proof.
  unfold read_material, bind, get_blend. simpl.
  rewrite lookup_snoc. reflexivity.
Qed.

Lemma update_material_snoc f os ms x a c r so fs :
  update_material (length ms) f (mkWorld (mkBlend os (ms ++ [x]) a c r) so fs)
  = match f x with
    | Val x' => Done tt (mkWorld (mkBlend os (ms ++ [x']) a c r) so fs)
    | Exn e => Raised e (mkWorld (mkBlend os (ms ++ [x]) a c r) so fs)
    end.
Proof.
  unfold update_material, bind. rewrite read_material_snoc.
  destruct (f x); simpl; [| reflexivity].
  unfold put_blend, set_materials; simpl. rewrite insert_snoc. reflexivity.
Qed.

Lemma nodes_new_snoc t os ms x a c r so fs :
  nodes_new (length ms) t (mkWorld (mkBlend os (ms ++ [x]) a c r) so fs)
  = Done (length (nodes x))
      (mkWorld
         (mkBlend os
            (ms ++ [mkMaterial (mat_name x) (use_nodes x)
                      (nodes x ++ [mkNode t ∅]) (links x)])
            a c r) so fs).
Proof.
  unfold nodes_new, bind.
  rewrite read_material_snoc, update_material_snoc. reflexivity.
Qed.

Lemma read_object_at os xs k ms a c r so fs :
  read_object (Some (length os + k)%nat)
    (mkWorld (mkBlend (os ++ xs) ms a c r) so fs)
  = match xs !! k with
    | Some o => Done o (mkWorld (mkBlend (os ++ xs) ms a c r) so fs)
    | None => Raised ReferenceError (mkWorld (mkBlend (os ++ xs) ms a c r) so fs)
    end.
Proof.
  unfold read_object, bind, get_blend. simpl. rewrite lookup_past.
  destruct (xs !! k); reflexivity.
Qed.

Lemma update_object_at f os xs k ms a c r so fs :
  update_object (Some (length os + k)%nat) f
    (mkWorld (mkBlend (os ++ xs) ms a c r) so fs)
  = match xs !! k with
    | Some o =>
        match f o with
        | Val o' =>
            Done tt (mkWorld (mkBlend (os ++ <[k := o']> xs) ms a c r) so fs)
        | Exn e => Raised e (mkWorld (mkBlend (os ++ xs) ms a c r) so fs)
        end
    | None => Raised ReferenceError (mkWorld (mkBlend (os ++ xs) ms a c r) so fs)
    end.
Proof.
  unfold update_object, bind. rewrite read_object_at.
  destruct (xs !! k) as [o |]; [| reflexivity].
  destruct (f o); simpl; [| reflexivity].
  unfold put_blend, set_objects; simpl. rewrite insert_past. reflexivity.
Qed.

Lemma read_object_first os o rest ms a c r so fs :
  read_object (Some (length os))
    (mkWorld (mkBlend (os ++ o :: rest) ms a c r) so fs)
  = Done o (mkWorld (mkBlend (os ++ o :: rest) ms a c r) so fs).
Proof.
  rewrite <- (Nat.add_0_r (length os)). rewrite read_object_at. reflexivity.
Qed.

Lemma update_object_first f os o rest ms a c r so fs :
  update_object (Some (length os)) f
    (mkWorld (mkBlend (os ++ o :: rest) ms a c r) so fs)
  = match f o with
    | Val o' => Done tt (mkWorld (mkBlend (os ++ o' :: rest) ms a c r) so fs)
    | Exn e => Raised e (mkWorld (mkBlend (os ++ o :: rest) ms a c r) so fs)
    end.
Proof.
  rewrite <- (Nat.add_0_r (length os)) at 1. rewrite update_object_at.
  reflexivity.
Qed.

Lemma read_object_none w : read_object None w = Raised AttributeError w.
Proof. reflexivity. Qed.

Lemma update_object_none f w : update_object None f w = Raised AttributeError w.
Proof. reflexivity. Qed.

Abbreviation deselect := (map (set_select false)).

Lemma deselect_twice (os : list Object) : deselect (deselect os) = deselect os.
Proof. rewrite map_map. apply map_ext. intros []; reflexivity. Qed.

Lemma radians_135 : radians_int 135 = Val (float_of_int 135 * degToRad)%float.
Proof. vm_compute. reflexivity. Qed.

Lemma radians_60 : radians_int 60 = Val (float_of_int 60 * degToRad)%float.
Proof. vm_compute. reflexivity. Qed.

Lemma plus_1_1 (n : nat) : (n + 1 + 1 = n + 2)%nat.
Proof. lia. Qed.

Arguments read_material : simpl never.
Arguments update_material : simpl never.
Arguments nodes_new : simpl never.
Arguments read_object : simpl never.
Arguments update_object : simpl never.
Arguments radians_int : simpl never.

(** *** Running the script symbolically *)

Ltac unfold_ops :=
  unfold ops_mesh_primitive_ico_sphere_add, ops_mesh_primitive_torus_add,
    ops_mesh_primitive_cube_add, ops_mesh_primitive_uv_sphere_add,
    ops_mesh_primitive_plane_add, ops_object_light_add, ops_object_camera_add,
    add_object, context_active_object, modifiers_new, modifiers_getitem,
    update_modifier, data_materials_new, set_scene_camera, update_render,
    ops_wm_save_as_mainfile.

Ltac run_step :=
  unfold bind, ret, lift, raise, get_blend, put_blend, print,
    set_materials, set_objects, set_active, set_camera, set_render;
  cbn -[map_insert];
  rewrite ?map_app, ?deselect_twice, <- ?app_assoc, ?length_app;
  rewrite ?update_material_snoc, ?nodes_new_snoc, ?read_material_snoc,
    ?read_object_first, ?update_object_first, ?read_object_at,
    ?update_object_at, ?read_object_none, ?update_object_none,
    ?radians_135, ?radians_60.

Ltac run := unfold_ops; repeat (progress run_step).

(** The final touch: positions in terms of the objects that were there. *)
Ltac tidy := rewrite ?length_map, ?plus_1_1.

(** ** The builders, run on any engine state *)

Lemma filter_selected (os : list Object) :
  List.filter kept (map (set_select true) os) = [].
Proof. induction os; simpl; auto. Qed.

Lemma remap_selected (os : list Object) (r : option nat) :
  r ≫= remap (map (set_select true) os) = None.
Proof.
  destruct r as [i |]; [| reflexivity]. simpl. unfold remap.
  destruct (map (set_select true) os !! i) as [o |] eqn:E; [| reflexivity].
  apply list_lookup_fmap_Some in E as (o' & -> & _). reflexivity.
Qed.

Lemma clean_scene_run (w : World) :
  clean_scene w
  = Done tt
      (mkWorld (mkBlend [] (materials (blend w)) None None (render (blend w)))
         (stdout w) (files w)).
Proof.
  destruct w as [[os ms a cam rs] so fs].
  unfold clean_scene, ops_object_select_all, ops_object_delete.
  run. rewrite filter_selected, !remap_selected. reflexivity.
Qed.

Lemma create_material_run (m : MaterialSpec) os ms a cam rs so fs :
  exists x,
    create_material (py_material m) (mkWorld (mkBlend os ms a cam rs) so fs)
    = Done (length ms) (mkWorld (mkBlend os (ms ++ [x]) a cam rs) so fs) /\
    mat_name x = "AvatarMaterial".
Proof.
  unfold create_material, py_material. run.
  destruct (String.eqb (m_type m) "metallic"); run;
    [eexists; split; reflexivity |].
  destruct (String.eqb (m_type m) "glass"); run;
    [eexists; split; reflexivity |].
  destruct (String.eqb (m_type m) "emissive"); run;
    eexists; split; reflexivity.
Qed.

Lemma setup_lighting_run os ms a c r so fs :
  exists lights,
    setup_lighting (mkWorld (mkBlend os ms a c r) so fs)
    = Done tt (mkWorld (mkBlend (deselect os ++ lights) ms
                          (Some (length os + 2)%nat) c r) so fs) /\
    map data lights
    = [Light "AREA" (Some (PInt 500)) None;
       Light "POINT" (Some (PInt 200))
         (Some (PTuple [PFloat 0.0; PFloat 0.5; PFloat 1.0]));
       Light "SPOT" (Some (PInt 1000)) None] /\
    map modifiers lights = [[]; []; []].
Proof.
  unfold setup_lighting. run. tidy.
  eexists [_; _; _]. split; [| split]; reflexivity.
Qed.

Lemma setup_camera_run os ms a c r so fs :
  exists cam,
    setup_camera (mkWorld (mkBlend os ms a c r) so fs)
    = Done tt (mkWorld (mkBlend (deselect os ++ [cam]) ms
                          (Some (length os)) (Some (length os)) r) so fs) /\
    data cam = Camera /\ modifiers cam = [].
Proof.
  unfold setup_camera. run. tidy.
  eexists. split; [| split]; reflexivity.
Qed.

Lemma create_particles_run (e : EnvironmentSpec) os ms a c r so fs :
  exists emitter proto pm,
    create_particles (py_environment e) (mkWorld (mkBlend os ms a c r) so fs)
    = Done tt (mkWorld (mkBlend (deselect os ++ [emitter; proto]) (ms ++ [pm])
                          (Some (length os + 1)%nat) c r) so fs) /\
    data emitter = Mesh (Plane (Some (PInt 10))) [] /\
    modifiers emitter
    = [ParticleSystem "Particles"
         (mkParticleSettings (Some (PInt (Z.of_N (e_particleCount e))))
            (Some (PInt 1)) (Some (PInt 1)) (Some (PInt 100))
            (Some (PStr "NO")) (Some (PStr "OBJECT"))
            (Some (length os + 1)%nat))] /\
    data proto = Mesh (IcoSphere None (Some (PFloat 0.1))) [length ms] /\
    modifiers proto = [] /\
    mat_name pm = "ParticleMat".
Proof.
  destruct e as [pn [[pr pg] pb]].
  unfold create_particles, py_environment. run. tidy.
  eexists _, _, _. repeat (split; [reflexivity |]). reflexivity.
Qed.

Lemma unrecognized_tests (t : string) :
  recognized t = false ->
  String.eqb t "icosahedron" = false /\ String.eqb t "torus" = false /\
  String.eqb t "cube" = false /\ String.eqb t "sphere" = false.
Proof.
  unfold recognized. intros H.
  apply orb_false_elim in H as [H H4]. apply orb_false_elim in H as [H H3].
  apply orb_false_elim in H as [H1 H2]. auto.
Qed.

Ltac split_type t Ht :=
  unfold recognized in Ht;
  destruct (String.eqb_spec t "icosahedron") as [-> | _];
  [| destruct (String.eqb_spec t "torus") as [-> | _];
     [| destruct (String.eqb_spec t "cube") as [-> | _];
        [| destruct (String.eqb_spec t "sphere") as [-> | _];
           [| discriminate Ht]]]].

Lemma create_geometry_run (g : GeometrySpec) mat os ms a c r so fs :
  recognized (g_type g) = true ->
  exists body,
    create_geometry (py_geometry g) mat (mkWorld (mkBlend os ms a c r) so fs)
    = Done (Some (length os))
        (mkWorld (mkBlend (deselect os ++ [body]) ms (Some (length os)) c r)
           so fs) /\
    object_materials body = [mat].
Proof.
  destruct g as [t n wf]. cbn [g_type]. intros Ht.
  unfold create_geometry, py_geometry. cbn [g_type g_subdivisions g_wireframe].
  split_type t Ht; destruct wf; run; tidy; eexists; split; reflexivity.
Qed.

Lemma create_geometry_nothing (g : GeometrySpec) mat os ms c r so fs :
  recognized (g_type g) = false ->
  create_geometry (py_geometry g) mat (mkWorld (mkBlend os ms None c r) so fs)
  = if g_wireframe g
    then Raised AttributeError (mkWorld (mkBlend os ms None c r) so fs)
    else Done None (mkWorld (mkBlend os ms None c r) so fs).
Proof.
  intros Ht. apply unrecognized_tests in Ht as (H1 & H2 & H3 & H4).
  unfold create_geometry, py_geometry. run. rewrite H1, H2, H3, H4. run.
  destruct (g_wireframe g); run; reflexivity.
Qed.

Lemma bind_run {A B} (m : M A) (k : A -> M B) w a w' :
  m w = Done a w' -> bind m k w = k a w'.
Proof. unfold bind. intros ->. reflexivity. Qed.

Lemma bind_raise {A B} (m : M A) (k : A -> M B) w e w' :
  m w = Raised e w' -> bind m k w = Raised e w'.
Proof. unfold bind. intros ->. reflexivity. Qed.

Lemma bind_lift {A B} (r : res A) (k : A -> M B) w a :
  r = Val a -> bind (lift r) k w = k a w.
Proof. intros ->. reflexivity. Qed.

Ltac lookup_step := erewrite bind_lift by reflexivity.


Lemma data_deselect (os : list Object) : map data (deselect os) = map data os.
Proof. rewrite map_map. apply map_ext. intros []; reflexivity. Qed.

Lemma modifiers_deselect (os : list Object) :
  map modifiers (deselect os) = map modifiers os.
Proof. rewrite map_map. apply map_ext. intros []; reflexivity. Qed.

(** The second half of [compose], from the lighting rig to the save, on
    any engine state: six objects and one material are added, whatever was
    built before. *)
Lemma compose_finish (a : AvatarSpec) (out : string) os ms act c r so fs :
  exists rig pm,
    let scene :=
      mkBlend (deselect os ++ rig) (ms ++ [pm]) (Some (length os + 5)%nat)
        (Some (length os + 3)%nat) (mkRender "CYCLES" 32 1024 1024 true) in
    (setup_lighting ;;
     setup_camera ;;
     environment <- lift (getitem (py_avatar a) "environment") ;;
     create_particles environment ;;
     update_render (set_engine "CYCLES") ;;
     update_render (set_samples 32) ;;
     update_render (set_resolution_x 1024) ;;
     update_render (set_resolution_y 1024) ;;
     update_render (set_film_transparent true) ;;
     ops_wm_save_as_mainfile out) (mkWorld (mkBlend os ms act c r) so fs)
    = Done tt (mkWorld scene so (<[out := scene]> fs)) /\
    map data rig
    = [Light "AREA" (Some (PInt 500)) None;
       Light "POINT" (Some (PInt 200))
         (Some (PTuple [PFloat 0.0; PFloat 0.5; PFloat 1.0]));
       Light "SPOT" (Some (PInt 1000)) None;
       Camera;
       Mesh (Plane (Some (PInt 10))) [];
       Mesh (IcoSphere None (Some (PFloat 0.1))) [length ms]] /\
    map modifiers rig
    = [[]; []; []; [];
       [ParticleSystem "Particles"
          (mkParticleSettings
             (Some (PInt (Z.of_N (e_particleCount (a_environment a)))))
             (Some (PInt 1)) (Some (PInt 1)) (Some (PInt 100))
             (Some (PStr "NO")) (Some (PStr "OBJECT"))
             (Some (length os + 5)%nat))];
       []].
Proof.
  destruct (setup_lighting_run os ms act c r so fs)
    as (lights & EL & HL1 & HL2).
  destruct (setup_camera_run (deselect os ++ lights) ms
              (Some (length os + 2)%nat) c r so fs)
    as (camera & EC & HC1 & HC2).
  destruct (create_particles_run (a_environment a)
              (deselect (deselect os ++ lights) ++ [camera]) ms
              (Some (length (deselect os ++ lights)))
              (Some (length (deselect os ++ lights))) r so fs)
    as (emitter & proto & pm & EP & HP1 & HP2 & HP3 & HP4 & HP5).
  assert (length lights = 3%nat) as Hlen
    by (rewrite <- (length_map data), HL1; reflexivity).
  exists (deselect lights ++ [set_select false camera; emitter; proto]), pm.
  split; [| split].
  - rewrite (bind_run _ _ _ _ _ EL), (bind_run _ _ _ _ _ EC).
    lookup_step. rewrite (bind_run _ _ _ _ _ EP).
    unfold update_render, ops_wm_save_as_mainfile, bind, get_blend, put_blend,
      set_render.
    cbn [blend stdout files objects materials active_object scene_camera render
         set_engine set_samples set_resolution_x set_resolution_y
         set_film_transparent engine samples resolution_x resolution_y
         film_transparent].
    rewrite !map_app, !deselect_twice, <- !app_assoc. cbn [map app].
    repeat (progress (rewrite ?length_app, ?length_map, ?Hlen)).
    cbn [length]. rewrite <- !Nat.add_assoc. reflexivity.
  - rewrite map_app, data_deselect, HL1. cbn [map app set_select data].
    rewrite HC1, HP1, HP3. reflexivity.
  - rewrite map_app, modifiers_deselect, HL2. cbn [map app set_select modifiers].
    rewrite HC2, HP2, HP4.
    repeat (progress (rewrite ?length_app, ?length_map, ?Hlen)).
    cbn [length]. rewrite <- !Nat.add_assoc. reflexivity.
Qed.

(** ** The whole of [compose] *)

(** From the start of [compose] to the call of [create_geometry], given
    what [create_material] does. *)
Ltac enter_compose E :=
  unfold compose; rewrite (bind_run _ _ _ _ _ (clean_scene_run _));
  cbn [materials blend render stdout files];
  lookup_step; rewrite (bind_run _ _ _ _ _ E); lookup_step.

Lemma compose_aborts (a : AvatarSpec) (out : string) (w : World) :
  recognized (g_type (a_geometry a)) = false ->
  g_wireframe (a_geometry a) = true ->
  let ms := materials (blend w) in
  exists x,
    create_material (py_material (a_material a)) (final (clean_scene w))
    = Done (length ms)
        (mkWorld (mkBlend [] (ms ++ [x]) None None (render (blend w)))
           (stdout w) (files w)) /\
    mat_name x = "AvatarMaterial" /\
    compose (py_avatar a) out w
    = Raised AttributeError
        (mkWorld (mkBlend [] (ms ++ [x]) None None (render (blend w)))
           (stdout w) (files w)).
Proof.
  intros Ht Hw. destruct w as [[os ms act cam rs] so fs].
  rewrite clean_scene_run. cbn [final materials blend render stdout files].
  destruct (create_material_run (a_material a) [] ms None None rs so fs)
    as (x & E & Hx).
  exists x. split; [exact E |]. split; [exact Hx |].
  enter_compose E.
  apply bind_raise. rewrite create_geometry_nothing by exact Ht.
  rewrite Hw. reflexivity.
Qed.

(** The scene without a body: everything [compose] does when
    [create_geometry] returns [None]. *)
Lemma compose_without_body (a : AvatarSpec) (out : string) (w : World) :
  recognized (g_type (a_geometry a)) = false ->
  g_wireframe (a_geometry a) = false ->
  let ms := materials (blend w) in
  exists x pm rig,
    let scene :=
      mkBlend rig (ms ++ [x; pm]) (Some 5%nat) (Some 3%nat)
        (mkRender "CYCLES" 32 1024 1024 true) in
    create_material (py_material (a_material a)) (final (clean_scene w))
    = Done (length ms)
        (mkWorld (mkBlend [] (ms ++ [x]) None None (render (blend w)))
           (stdout w) (files w)) /\
    mat_name x = "AvatarMaterial" /\
    compose (py_avatar a) out w
    = Done tt (mkWorld scene (stdout w) (<[out := scene]> (files w))) /\
    map data rig
    = [Light "AREA" (Some (PInt 500)) None;
       Light "POINT" (Some (PInt 200))
         (Some (PTuple [PFloat 0.0; PFloat 0.5; PFloat 1.0]));
       Light "SPOT" (Some (PInt 1000)) None;
       Camera;
       Mesh (Plane (Some (PInt 10))) [];
       Mesh (IcoSphere None (Some (PFloat 0.1))) [S (length ms)]] /\
    map modifiers rig
    = [[]; []; []; [];
       [ParticleSystem "Particles"
          (mkParticleSettings
             (Some (PInt (Z.of_N (e_particleCount (a_environment a)))))
             (Some (PInt 1)) (Some (PInt 1)) (Some (PInt 100))
             (Some (PStr "NO")) (Some (PStr "OBJECT")) (Some 5%nat))];
       []].
Proof.
  intros Ht Hw. destruct w as [[os ms act cam rs] so fs].
  rewrite clean_scene_run. cbn [final materials blend render stdout files].
  destruct (create_material_run (a_material a) [] ms None None rs so fs)
    as (x & E & Hx).
  destruct (compose_finish a out [] (ms ++ [x]) None None rs so fs)
    as (rig & pm & EF & HF1 & HF2).
  exists x, pm, rig. split; [exact E |]. split; [exact Hx |].
  split; [| split].
  - enter_compose E.
    rewrite (bind_run _ _ _ _ _
               (eq_trans (create_geometry_nothing _ _ _ _ _ _ _ _ Ht)
                  ltac:(rewrite Hw; reflexivity))).
    rewrite (bind_run (ret tt) _ _ _ _ eq_refl).
    rewrite EF. cbn [map app length Nat.add]. rewrite <- app_assoc. reflexivity.
  - rewrite HF1, length_app, Nat.add_1_r. reflexivity.
  - exact HF2.
Qed.

Arguments radians_each : simpl never.

(** The transform step of [compose], on the object just built. *)
Lemma compose_transform (a : AvatarSpec) os body ms c r so fs :
  let params := py_avatar a in
  let obj := Some (length os) in
  let w := mkWorld (mkBlend (os ++ [body]) ms obj c r) so fs in
  (transform <- lift (getitem params "transform") ;;
   rotation <- lift (getitem transform "rotation") ;;
   angles <- lift (iter rotation) ;;
   euler <- lift (radians_each angles) ;;
   update_object obj (fun o => Val (set_rotation_euler (PList euler) o)) ;;
   transform <- lift (getitem params "transform") ;;
   s <- lift (getitem transform "scale") ;;
   update_object obj (fun o => Val (set_scale (PTuple [s; s; s]) o))) w
  = match radians_each (map py_number
                          (let '(x, y, z) := t_rotation (a_transform a) in
                           [x; y; z])) with
    | Val euler =>
        let s := py_number (t_scale (a_transform a)) in
        Done tt
          (mkWorld
             (mkBlend
                (os ++ [set_scale (PTuple [s; s; s])
                          (set_rotation_euler (PList euler) body)])
                ms obj c r) so fs)
    | Exn e => Raised e w
    end.
Proof.
  destruct a as [m g [[[rx ry] rz] sc] e]. cbn zeta.
  do 3 lookup_step.
  cbn [a_transform t_rotation t_scale map].
  destruct (radians_each _) as [euler | err]; [| reflexivity].
  run. reflexivity.
Qed.


Lemma compose_with_body (a : AvatarSpec) (out : string) (w : World) :
  recognized (g_type (a_geometry a)) = true ->
  let ms := materials (blend w) in
  exists x,
    create_material (py_material (a_material a)) (final (clean_scene w))
    = Done (length ms)
        (mkWorld (mkBlend [] (ms ++ [x]) None None (render (blend w)))
           (stdout w) (files w)) /\
    mat_name x = "AvatarMaterial" /\
    exists rest,
      materials (blend (final (compose (py_avatar a) out w))) = ms ++ x :: rest.
Proof.
  intros Ht. destruct w as [[os ms act cam rs] so fs].
  rewrite clean_scene_run. cbn [final materials blend render stdout files].
  destruct (create_material_run (a_material a) [] ms None None rs so fs)
    as (x & E & Hx).
  exists x. split; [exact E |]. split; [exact Hx |].
  destruct (create_geometry_run (a_geometry a) (length ms) [] (ms ++ [x])
              None None rs so fs Ht) as (body & EG & HG).
  enter_compose E. rewrite (bind_run _ _ _ _ _ EG). cbn match.
  change (deselect (@nil Object)) with (@nil Object).
  pose proof (compose_transform a [] body (ms ++ [x]) None rs so fs) as ET.
  cbn zeta in ET.
  destruct (radians_each _) as [euler | err].
  - rewrite (bind_run _ _ _ _ _ ET).
    destruct (compose_finish a out
                ([] ++ [set_scale
                          (PTuple [py_number (t_scale (a_transform a));
                                   py_number (t_scale (a_transform a));
                                   py_number (t_scale (a_transform a))])
                          (set_rotation_euler (PList euler) body)])
                (ms ++ [x]) (Some (length (@nil Object))) None rs so fs)
      as (rig & pm & EF & _).
    rewrite EF. exists [pm]. cbn [final blend materials].
    rewrite <- app_assoc. reflexivity.
  - rewrite (bind_raise _ _ _ _ _ ET). exists []. reflexivity.
Qed.

(** ** Operations that leave the saved files alone *)

Lemma silent_ret {A} (a : A) : silent (ret a).
Proof. intros w; reflexivity. Qed.

Lemma silent_raise {A} (e : exn) : silent (@raise A e).
Proof. intros w; reflexivity. Qed.

Lemma silent_lift {A} (r : res A) : silent (lift r).
Proof. destruct r; intros w; reflexivity. Qed.

Lemma silent_bind {A B} (m : M A) (k : A -> M B) :
  silent m -> (forall a, silent (k a)) -> silent (bind m k).
Proof.
  intros Hm Hk w. unfold bind. specialize (Hm w).
  destruct (m w) as [a w1 | e w1]; simpl in *; [| assumption].
  rewrite Hk. assumption.
Qed.

Lemma silent_get_blend : silent get_blend.
Proof. intros w; reflexivity. Qed.

Lemma silent_put_blend (b : Blend) : silent (put_blend b).
Proof. intros w; reflexivity. Qed.

Lemma silent_print (line : string) : silent (print line).
Proof. intros w; reflexivity. Qed.

Create HintDb silent.
#[local] Hint Resolve silent_ret silent_raise silent_lift silent_get_blend
  silent_put_blend silent_print : silent.

Ltac silence :=
  repeat first
    [ progress auto with silent
    | apply silent_bind; [| intro]
    | match goal with
      | |- silent (match ?x with _ => _ end) => destruct x
      | |- silent (if ?x then _ else _) => destruct x
      end ].

Lemma silent_read_object r : silent (read_object r).
Proof. unfold read_object. silence. Qed.

Lemma silent_update_object r f : silent (update_object r f).
Proof. unfold update_object. pose proof silent_read_object. silence. Qed.

Lemma silent_read_material m : silent (read_material m).
Proof. unfold read_material. silence. Qed.

Lemma silent_update_material m f : silent (update_material m f).
Proof. unfold update_material. pose proof silent_read_material. silence. Qed.

#[local] Hint Resolve silent_read_object silent_update_object
  silent_read_material silent_update_material : silent.

Lemma silent_add_object d loc : silent (add_object d loc).
Proof. unfold add_object. silence. Qed.

Lemma silent_modifiers_new r n t : silent (modifiers_new r n t).
Proof. unfold modifiers_new. silence. Qed.

Lemma silent_modifiers_getitem r n : silent (modifiers_getitem r n).
Proof. unfold modifiers_getitem. silence. Qed.

Lemma silent_nodes_new m t : silent (nodes_new m t).
Proof. unfold nodes_new. silence. Qed.

Lemma silent_data_materials_new n : silent (data_materials_new n).
Proof. unfold data_materials_new. silence. Qed.

Lemma silent_context_active_object : silent context_active_object.
Proof. unfold context_active_object. silence. Qed.

Lemma silent_update_render f : silent (update_render f).
Proof. unfold update_render. silence. Qed.

#[local] Hint Resolve silent_add_object silent_modifiers_new
  silent_modifiers_getitem silent_nodes_new silent_data_materials_new
  silent_context_active_object silent_update_render : silent.

Lemma silent_clean_scene : silent clean_scene.
Proof. unfold clean_scene, ops_object_select_all, ops_object_delete. silence. Qed.

Lemma silent_create_material p : silent (create_material p).
Proof. unfold create_material. silence. Qed.

Lemma silent_create_geometry p mat : silent (create_geometry p mat).
Proof. unfold create_geometry. unfold_ops. silence. Qed.

Lemma silent_setup_lighting : silent setup_lighting.
Proof. unfold setup_lighting. unfold_ops. silence. Qed.

Lemma silent_setup_camera : silent setup_camera.
Proof. unfold setup_camera. unfold_ops. silence. Qed.

Lemma silent_create_particles p : silent (create_particles p).
Proof. unfold create_particles. unfold_ops. silence. Qed.

(** ** Exceptions before the save *)

Lemma quiet_bind {A B} (m : M A) (k : A -> M B) :
  silent m -> (forall a, quiet (k a)) -> quiet (bind m k).
Proof.
  intros Hm Hk w e w'. unfold bind. specialize (Hm w).
  destruct (m w) as [a w1 | e1 w1]; simpl in Hm.
  - intros E. rewrite (Hk _ _ _ _ E). exact Hm.
  - intros [= _ <-]. exact Hm.
Qed.

Lemma quiet_save (path : string) : quiet (ops_wm_save_as_mainfile path).
Proof. intros w e w'. discriminate. Qed.

#[local] Hint Resolve silent_clean_scene silent_create_material
  silent_create_geometry silent_setup_lighting silent_setup_camera
  silent_create_particles : silent.

Lemma quiet_compose (params : value) (out : string) : quiet (compose params out).
Proof.
  unfold compose.
  repeat (apply quiet_bind; [solve [silence] | intro]).
  apply quiet_save.
Qed.

Lemma bind_done {A B} (m : M A) (k : A -> M B) w b w' :
  bind m k w = Done b w' ->
  exists a w1, m w = Done a w1 /\ k a w1 = Done b w'.
Proof.
  unfold bind. destruct (m w) as [a w1 | e w1]; [eauto | discriminate].
Qed.

Ltac invert_binds H :=
  repeat (apply bind_done in H;
          let a := fresh "a" in let w := fresh "w" in let E := fresh "E" in
          destruct H as (a & w & E & H)).

Lemma lift_done {A} (r : res A) w a w' :
  lift r w = Done a w' -> r = Val a /\ w' = w.
Proof. destruct r; simpl; [intros [= -> ->]; auto | discriminate]. Qed.

(** For one of the four types, [create_geometry] returns an object
    whenever it returns, whatever else the parameters hold. *)
Lemma create_geometry_recognized g t mat w obj w' :
  getitem g "type" = Val (PStr t) -> recognized t = true ->
  create_geometry g mat w = Done obj w' -> is_Some obj.
Proof.
  intros Ht Hr. destruct w as [[os ms a cam rs] so fs].
  unfold create_geometry. rewrite Ht.
  destruct (getitem g "subdivisions") as [n | e1];
    (destruct (getitem g "wireframe") as [wf | e2];
      [destruct (truthy wf) eqn:Hwf |]);
    split_type t Hr;
    run; rewrite ?Hwf; run; try discriminate; intros [= <- _]; eauto.
Qed.

Lemma separator_spec (argv : list string) :
  existsb (String.eqb "--") argv = true <-> "--" ∈ argv.
Proof.
  rewrite existsb_exists, list_elem_of_In. split.
  - intros (x & Hin & Heq). apply String.eqb_eq in Heq. subst. exact Hin.
  - intros Hin. exists "--". split; [exact Hin | apply String.eqb_refl].
Qed.

Lemma eqb_ne (s t : string) : s <> t -> String.eqb s t = false.
Proof. apply String.eqb_neq. Qed.

(** ** What the pipeline reads

    Every step reads the parameters and the engine's data; none reads what
    was printed or the files, and the output path is used by the save
    alone. *)

Lemma engine_ret {A} (a : A) : engine_only (ret a).
Proof. intros w1 w2 H. split; [reflexivity | exact H]. Qed.

Lemma engine_raise {A} (e : exn) : engine_only (@raise A e).
Proof. intros w1 w2 H. split; [reflexivity | exact H]. Qed.

Lemma engine_lift {A} (r : res A) : engine_only (lift r).
Proof. destruct r; [apply engine_ret | apply engine_raise]. Qed.

Lemma engine_bind {A B} (m : M A) (k : A -> M B) :
  engine_only m -> (forall a, engine_only (k a)) -> engine_only (bind m k).
Proof.
  intros Hm Hk w1 w2 H. unfold bind. specialize (Hm w1 w2 H).
  destruct (m w1) as [a1 v1 | e1 v1], (m w2) as [a2 v2 | e2 v2];
    simpl in Hm; try contradiction; destruct Hm as [<- Hb].
  - apply Hk, Hb.
  - split; [reflexivity | exact Hb].
Qed.

Lemma engine_get_blend : engine_only get_blend.
Proof. intros w1 w2 H. split; exact H. Qed.

Lemma engine_put_blend (b : Blend) : engine_only (put_blend b).
Proof. intros w1 w2 H. split; reflexivity. Qed.

Lemma engine_print (line : string) : engine_only (print line).
Proof. intros w1 w2 H. split; [reflexivity | exact H]. Qed.

Create HintDb engine.
#[local] Hint Resolve engine_ret engine_raise engine_lift engine_get_blend
  engine_put_blend engine_print : engine.

Ltac engine :=
  repeat first
    [ progress auto with engine
    | apply engine_bind; [| intro]
    | match goal with
      | |- engine_only (match ?x with _ => _ end) => destruct x
      | |- engine_only (if ?x then _ else _) => destruct x
      end ].

Lemma engine_read_object r : engine_only (read_object r).
Proof. unfold read_object. engine. Qed.

Lemma engine_update_object r f : engine_only (update_object r f).
Proof. unfold update_object. pose proof engine_read_object. engine. Qed.

Lemma engine_read_material m : engine_only (read_material m).
Proof. unfold read_material. engine. Qed.

Lemma engine_update_material m f : engine_only (update_material m f).
Proof. unfold update_material. pose proof engine_read_material. engine. Qed.

#[local] Hint Resolve engine_read_object engine_update_object
  engine_read_material engine_update_material : engine.

Lemma engine_add_object d loc : engine_only (add_object d loc).
Proof. unfold add_object. engine. Qed.

Lemma engine_modifiers_new r n t : engine_only (modifiers_new r n t).
Proof. unfold modifiers_new. engine. Qed.

Lemma engine_modifiers_getitem r n : engine_only (modifiers_getitem r n).
Proof. unfold modifiers_getitem. engine. Qed.

Lemma engine_nodes_new m t : engine_only (nodes_new m t).
Proof. unfold nodes_new. engine. Qed.

Lemma engine_data_materials_new n : engine_only (data_materials_new n).
Proof. unfold data_materials_new. engine. Qed.

Lemma engine_context_active_object : engine_only context_active_object.
Proof. unfold context_active_object. engine. Qed.

Lemma engine_update_render f : engine_only (update_render f).
Proof. unfold update_render. engine. Qed.

#[local] Hint Resolve engine_add_object engine_modifiers_new
  engine_modifiers_getitem engine_nodes_new engine_data_materials_new
  engine_context_active_object engine_update_render : engine.

Lemma engine_clean_scene : engine_only clean_scene.
Proof. unfold clean_scene, ops_object_select_all, ops_object_delete. engine. Qed.

Lemma engine_create_material p : engine_only (create_material p).
Proof. unfold create_material. engine. Qed.

Lemma engine_create_geometry p mat : engine_only (create_geometry p mat).
Proof. unfold create_geometry. unfold_ops. engine. Qed.

Lemma engine_setup_lighting : engine_only setup_lighting.
Proof. unfold setup_lighting. unfold_ops. engine. Qed.

Lemma engine_setup_camera : engine_only setup_camera.
Proof. unfold setup_camera. unfold_ops. engine. Qed.

Lemma engine_create_particles p : engine_only (create_particles p).
Proof. unfold create_particles. unfold_ops. engine. Qed.

#[local] Hint Resolve engine_clean_scene engine_create_material
  engine_create_geometry engine_setup_lighting engine_setup_camera
  engine_create_particles : engine.

Lemma content_bind {A} (m : M A) (k1 k2 : A -> M unit) (out1 out2 : string) :
  engine_only m ->
  (forall a w1 w2, blend w1 = blend w2 ->
                   same_content out1 out2 (k1 a w1) (k2 a w2)) ->
  forall w1 w2, blend w1 = blend w2 ->
                same_content out1 out2 (bind m k1 w1) (bind m k2 w2).
Proof.
  intros Hm Hk w1 w2 H. unfold bind. specialize (Hm w1 w2 H).
  destruct (m w1) as [a1 v1 | e1 v1], (m w2) as [a2 v2 | e2 v2];
    simpl in Hm; try contradiction; destruct Hm as [<- Hb].
  - apply Hk, Hb.
  - split; [reflexivity | exact Hb].
Qed.

Lemma content_save (out1 out2 : string) (w1 w2 : World) :
  blend w1 = blend w2 ->
  same_content out1 out2
    (ops_wm_save_as_mainfile out1 w1) (ops_wm_save_as_mainfile out2 w2).
Proof.
  intros H. unfold ops_wm_save_as_mainfile, same_content. cbn [blend files].
  rewrite !lookup_insert_eq. split; [exact H |]. split; eauto.
Qed.

(** The scene [compose] leaves is a function of the parameters and of the
    engine's data it starts from. *)
Lemma compose_content (params : value) (out1 out2 : string) (w1 w2 : World) :
  blend w1 = blend w2 ->
  same_content out1 out2 (compose params out1 w1) (compose params out2 w2).
Proof.
  revert w1 w2. unfold compose.
  do 15 (apply content_bind; [solve [engine] | intros ?]).
  apply content_save.
Qed.

(** ** The model runs: the scenario of the specification

    One body, three lights, a camera, an emitter and its particle
    prototype; two materials; the file is written. *)
Example red_sphere_scene :
  exists w',
    compose (py_avatar red_sphere) "avatar.blend" empty_world = Done tt w' /\
    map data (objects (blend w'))
    = [Mesh UVSphere [0%nat];
       Light "AREA" (Some (PInt 500)) None;
       Light "POINT" (Some (PInt 200))
         (Some (PTuple [PFloat 0.0; PFloat 0.5; PFloat 1.0]));
       Light "SPOT" (Some (PInt 1000)) None;
       Camera;
       Mesh (Plane (Some (PInt 10))) [];
       Mesh (IcoSphere None (Some (PFloat 0.1))) [1%nat]] /\
    map mat_name (materials (blend w')) = ["AvatarMaterial"; "ParticleMat"] /\
    files w' !! "avatar.blend" = Some (blend w').
Proof.
  eexists. split; [vm_compute; reflexivity |].
  split; [reflexivity |]. split; [reflexivity |]. vm_compute. reflexivity.
Qed.

(** ** The claims of the specification *)

(** C1 (the code fails it).  The claim: with an unrecognized geometry type
    the builder returns null and [compose] still builds lights, camera and
    particles and saves the scene.  The code does so when [wireframe] is
    false ([compose_without_body]).  When [wireframe] is true it does not:
    at the input [pyramid_wire] the wireframe modifier is requested on the
    null object, [compose] stops with [AttributeError] right after the
    material was made, the scene holds no object and nothing is saved. *)
Theorem unknown_geometry_wireframe_aborts (out : string) (w : World) :
  recognized (g_type (a_geometry pyramid_wire)) = false /\
  exists w',
    compose (py_avatar pyramid_wire) out w = Raised AttributeError w' /\
    objects (blend w') = [] /\
    files w' = files w.
Proof.
  split; [reflexivity |].
  destruct (compose_aborts pyramid_wire out w eq_refl eq_refl)
    as (x & _ & _ & E).
  eexists. split; [exact E |]. split; reflexivity.
Qed.

(** C2.  When the parameter text does not decode, [main] prints
    ["Invalid JSON params"] and exits with status 1; the engine's data is
    untouched and no file is written. *)
Theorem malformed_json_exits parse_args json_loads argv out payload w :
  "--" ∈ argv ->
  parse_args (drop (S (index "--" argv)) argv) = Namespace out payload ->
  json_loads payload = None ->
  main parse_args json_loads argv w
  = Raised (SystemExit 1)
      (mkWorld (blend w) (stdout w ++ ["Invalid JSON params"]) (files w)) /\
  exit_status (main parse_args json_loads argv w) = Some 1.
Proof.
  intros Hsep Hargs Hjson. apply separator_spec in Hsep.
  unfold main. rewrite Hsep, Hargs, Hjson. split; reflexivity.
Qed.

Lemma malformed_json_exits_witness :
  let argv := ["blender"; "--"; "--output"; "avatar.blend"; "--params"; "{"] in
  main parse_exact loads_empty_object argv empty_world
  = Raised (SystemExit 1)
      (mkWorld (blend empty_world) ["Invalid JSON params"] (files empty_world)) /\
  exit_status (main parse_exact loads_empty_object argv empty_world) = Some 1.
Proof.
  apply (malformed_json_exits parse_exact loads_empty_object
           ["blender"; "--"; "--output"; "avatar.blend"; "--params"; "{"]
           "avatar.blend" "{" empty_world).
  - apply (bool_decide_unpack _). vm_compute. exact I.
  - reflexivity.
  - reflexivity.
Defined.

(** C3.  A glass material has transmission 1.0 and roughness 0.0 on its
    principled shader, whatever roughness the parameters give. *)
Theorem glass_forces_roughness (m : MaterialSpec) (w : World) :
  m_type m = "glass" ->
  exists w' x,
    create_material (py_material m) w = Done (length (materials (blend w))) w' /\
    materials (blend w') !! length (materials (blend w)) = Some x /\
    shader_input x "Transmission" = Some (PFloat 1.0) /\
    shader_input x "Roughness" = Some (PFloat 0.0).
Proof.
  intros Hglass. destruct w as [[os ms a cam rs] so fs].
  unfold create_material, py_material. rewrite Hglass. run.
  eexists _, _. split; [reflexivity |].
  cbn [materials blend]. rewrite lookup_snoc. split; [reflexivity |].
  split; vm_compute; reflexivity.
Qed.

Lemma glass_forces_roughness_witness :
  exists w' x,
    create_material
      (py_material (mkMaterialSpec (Int 1, Int 0, Int 0, Int 1) (Float 0.5) "glass"))
      empty_world = Done O w' /\
    materials (blend w') !! O = Some x /\
    shader_input x "Transmission" = Some (PFloat 1.0) /\
    shader_input x "Roughness" = Some (PFloat 0.0).
Proof.
  apply (glass_forces_roughness
           (mkMaterialSpec (Int 1, Int 0, Int 0, Int 1) (Float 0.5) "glass")
           empty_world).
  reflexivity.
Defined.

(** C4 as stated fails: with an unrecognized type nothing is built, and in
    an empty scene the request for the wireframe modifier raises
    [AttributeError]. *)
Lemma wireframe_without_object :
  g_wireframe (a_geometry pyramid_wire) = true /\
  create_geometry (py_geometry (a_geometry pyramid_wire)) O empty_world
  = Raised AttributeError empty_world.
Proof. split; reflexivity. Qed.

(** C4 (amended).  For each of the four recognized types and
    [wireframe = true], the object just built ends with a wireframe
    modifier of thickness 0.02. *)
Theorem wireframe_on_recognized (g : GeometrySpec) (mat : nat) (w : World) :
  g_wireframe g = true -> recognized (g_type g) = true ->
  exists w' o,
    create_geometry (py_geometry g) mat w
    = Done (Some (length (objects (blend w)))) w' /\
    objects (blend w') !! length (objects (blend w)) = Some o /\
    list.last (modifiers o) = Some (Wireframe "Wireframe" (Some (PFloat 0.02))).
Proof.
  destruct g as [t n wf], w as [[os ms a cam rs] so fs].
  cbn [g_wireframe g_type]. intros -> Ht.
  unfold create_geometry, py_geometry. cbn [g_type g_subdivisions g_wireframe].
  split_type t Ht; run; tidy;
    (eexists _, _; split; [reflexivity |]; cbn [objects blend]; split;
     [apply lookup_snoc_at; symmetry; apply length_map | reflexivity]).
Qed.

Lemma wireframe_on_recognized_witness :
  exists w' o,
    create_geometry (py_geometry (mkGeometrySpec "torus" 0 true)) O empty_world
    = Done (Some O) w' /\
    objects (blend w') !! O = Some o /\
    list.last (modifiers o) = Some (Wireframe "Wireframe" (Some (PFloat 0.02))).
Proof.
  apply (wireframe_on_recognized (mkGeometrySpec "torus" 0 true) O empty_world);
    reflexivity.
Defined.

(** C5 as stated fails: a document without [transform] and with an
    unrecognized geometry type is composed and saved, since [transform] is
    read only when a body was built. *)
Lemma missing_transform_still_saves :
  missing "transform" no_transform /\
  exists w',
    compose no_transform "avatar.blend" empty_world = Done tt w' /\
    files w' !! "avatar.blend" = Some (blend w').
Proof.
  split; [reflexivity |].
  eexists. split; [vm_compute; reflexivity |]. vm_compute. reflexivity.
Qed.

(** C5 (amended).  If [material], [geometry] or [environment] is missing, or
    [transform] is missing and the geometry type is one of the four
    recognized ones, [compose] ends in an exception and no file is
    written. *)
Theorem missing_subrecord_halts (params : value) (out : string) (w : World) :
  missing "material" params \/ missing "geometry" params \/
  missing "environment" params \/
  (missing "transform" params /\
   exists g t, getitem params "geometry" = Val g /\
               getitem g "type" = Val (PStr t) /\ recognized t = true) ->
  exists e w', compose params out w = Raised e w' /\ files w' = files w.
Proof.
  intros Hmiss.
  destruct (compose params out w) as [[] w' | e w'] eqn:E;
    [exfalso
    | exists e, w'; split; [reflexivity | exact (quiet_compose _ _ _ _ _ E)]].
  unfold compose in E. invert_binds E.
  repeat match goal with
         | H : lift _ _ = Done _ _ |- _ =>
             apply lift_done in H; destruct H as [H ->]
         end.
  unfold missing in Hmiss.
  destruct Hmiss as [Hm | [Hm | [Hm | (Hm & g & t & Hg & Ht & Hr)]]];
    try congruence.
  match goal with
  | H : create_geometry ?g' _ _ = Done ?obj _ |- _ =>
      assert (g' = g) as -> by congruence;
      destruct (create_geometry_recognized _ _ _ _ _ _ Ht Hr H) as [i ->]
  end.
  match goal with
  | H : bind (lift (getitem params "transform")) _ _ = Done _ _ |- _ =>
      apply bind_done in H; destruct H as (? & ? & H & _);
      apply lift_done in H; destruct H as [H _]; congruence
  end.
Qed.

Lemma missing_subrecord_halts_witness :
  exists e w',
    compose (PDict [("geometry", py_geometry (a_geometry red_sphere))])
      "avatar.blend" empty_world = Raised e w' /\
    files w' = files empty_world.
Proof.
  apply (missing_subrecord_halts
           (PDict [("geometry", py_geometry (a_geometry red_sphere))])
           "avatar.blend" empty_world).
  left. reflexivity.
Defined.

(** C6.  A cube is the base cube with a subdivision-surface modifier at
    level [subdivisions]; an icosahedron takes [subdivisions] as an argument
    of the primitive and gets no such modifier; for a torus and a sphere
    the outcome is the same whatever [subdivisions] is. *)
Theorem subdivision_by_type (n : N) (wf : bool) (mat : nat) (w : World) :
  let i := length (objects (blend w)) in
  let geometry t k := py_geometry (mkGeometrySpec t k wf) in
  (exists w' o,
      create_geometry (geometry "cube" n) mat w = Done (Some i) w' /\
      objects (blend w') !! i = Some o /\
      data o = Mesh Cube [mat] /\
      modifiers o = Subsurf "Subsurf" (Some (PInt (Z.of_N n))) :: wire wf) /\
  (exists w' o,
      create_geometry (geometry "icosahedron" n) mat w = Done (Some i) w' /\
      objects (blend w') !! i = Some o /\
      data o = Mesh (IcoSphere (Some (PInt (Z.of_N n))) None) [mat] /\
      modifiers o = wire wf /\
      existsb is_subsurf (modifiers o) = false) /\
  (forall n', create_geometry (geometry "torus" n') mat w
              = create_geometry (geometry "torus" n) mat w) /\
  (forall n', create_geometry (geometry "sphere" n') mat w
              = create_geometry (geometry "sphere" n) mat w).
Proof.
  destruct w as [[os ms a cam rs] so fs]. cbn zeta.
  split; [| split; [| split]].
  - unfold create_geometry, py_geometry. destruct wf; run; tidy;
      (eexists _, _; split; [reflexivity |]; cbn [objects blend]; split;
       [apply lookup_snoc_at; symmetry; apply length_map |]);
      split; reflexivity.
  - unfold create_geometry, py_geometry. destruct wf; run; tidy;
      (eexists _, _; split; [reflexivity |]; cbn [objects blend]; split;
       [apply lookup_snoc_at; symmetry; apply length_map |]);
      repeat split; reflexivity.
  - intros n'. reflexivity.
  - intros n'. reflexivity.
Qed.

(** C7 as stated fails: the specification is not the only input.  A second
    run in the same engine, on the same specification, starts from the
    materials the first one left ([clean_scene] removes objects only) and
    ends with another scene: four materials where the first run had two. *)
Lemma second_compose_differs :
  exists w1 w2,
    compose (py_avatar red_sphere) "first.blend" empty_world = Done tt w1 /\
    compose (py_avatar red_sphere) "second.blend" w1 = Done tt w2 /\
    length (materials (blend w1)) = 2%nat /\
    length (materials (blend w2)) = 4%nat /\
    blend w1 <> blend w2.
Proof.
  eexists _, _. split; [vm_compute; reflexivity |].
  split; [vm_compute; reflexivity |].
  split; [reflexivity |]. split; [reflexivity |].
  intros E. apply (f_equal (fun b => length (materials b))) in E.
  vm_compute in E. discriminate E.
Qed.

(** C7 (amended).  Two runs of [compose] on the same specification, from
    engines that hold the same data, with any two output paths and whatever
    was printed or saved before: both raise the same exception with the
    same engine data, or both finish with the same scene, each having
    written a file at its own path.  No step draws a random number or reads the output
    path, the printed output or the files: the scene is a function of the
    specification and of the engine's data at the start. *)
Theorem compose_reads_spec_and_engine (a : AvatarSpec) (out1 out2 : string)
    (w1 w2 : World) :
  blend w1 = blend w2 ->
  same_content out1 out2
    (compose (py_avatar a) out1 w1) (compose (py_avatar a) out2 w2).
Proof. apply compose_content. Qed.

Lemma compose_reads_spec_and_engine_witness :
  same_content "first.blend" "second.blend"
    (compose (py_avatar red_sphere) "first.blend" empty_world)
    (compose (py_avatar red_sphere) "second.blend"
       (mkWorld (blend empty_world) ["an earlier line"]
          {[ "first.blend" := blend empty_world ]})).
Proof.
  apply (compose_reads_spec_and_engine red_sphere "first.blend" "second.blend"
           empty_world
           (mkWorld (blend empty_world) ["an earlier line"]
              {[ "first.blend" := blend empty_world ]})).
  reflexivity.
Defined.

(** C8.  With any type other than metallic, glass and emissive the
    material is made without error: an output node and a principled shader
    with the base color and roughness of the parameters, and no metallic,
    transmission or emission input. *)
Theorem other_material_is_plain (m : MaterialSpec) (w : World) :
  m_type m <> "metallic" -> m_type m <> "glass" -> m_type m <> "emissive" ->
  exists w' x,
    create_material (py_material m) w = Done (length (materials (blend w))) w' /\
    materials (blend w') !! length (materials (blend w)) = Some x /\
    x = mkMaterial "AvatarMaterial" true
          [mkNode "ShaderNodeOutputMaterial" ∅;
           mkNode "ShaderNodeBsdfPrincipled"
             (<["Roughness" := py_number (m_roughness m)]>
                (<["Base Color" := py_vec4 (m_color m)]> ∅))]
          [mkLink 1 "BSDF" 0 "Surface"] /\
    shader_input x "Base Color" = Some (py_vec4 (m_color m)) /\
    shader_input x "Roughness" = Some (py_number (m_roughness m)) /\
    shader_input x "Metallic" = None /\
    shader_input x "Transmission" = None /\
    shader_input x "Emission" = None /\
    shader_input x "Emission Strength" = None.
Proof.
  intros Hm Hg He. destruct w as [[os ms a cam rs] so fs].
  unfold create_material, py_material. run.
  rewrite (eqb_ne _ _ Hm), (eqb_ne _ _ Hg), (eqb_ne _ _ He). run.
  eexists _, _. split; [reflexivity |].
  cbn [materials blend]. rewrite lookup_snoc.
  split; [reflexivity |]. split; [reflexivity |].
  repeat split; vm_compute; reflexivity.
Qed.

Lemma other_material_is_plain_witness :
  let m := mkMaterialSpec (Int 1, Int 0, Int 0, Int 1) (Float 0.5) "default" in
  exists w' x,
    create_material (py_material m) empty_world = Done O w' /\
    materials (blend w') !! O = Some x /\
    x = mkMaterial "AvatarMaterial" true
          [mkNode "ShaderNodeOutputMaterial" ∅;
           mkNode "ShaderNodeBsdfPrincipled"
             (<["Roughness" := py_number (m_roughness m)]>
                (<["Base Color" := py_vec4 (m_color m)]> ∅))]
          [mkLink 1 "BSDF" 0 "Surface"] /\
    shader_input x "Base Color" = Some (py_vec4 (m_color m)) /\
    shader_input x "Roughness" = Some (py_number (m_roughness m)) /\
    shader_input x "Metallic" = None /\
    shader_input x "Transmission" = None /\
    shader_input x "Emission" = None /\
    shader_input x "Emission Strength" = None.
Proof.
  apply (other_material_is_plain
           (mkMaterialSpec (Int 1, Int 0, Int 0, Int 1) (Float 0.5) "default")
           empty_world); discriminate.
Defined.

(** C9.  Without a ["--"] among the arguments [main] prints one line and
    returns: the engine's data and the files are as before, and the status
    is 0. *)
Theorem no_separator_returns parse_args json_loads argv w :
  "--" ∉ argv ->
  main parse_args json_loads argv w
  = Done tt (mkWorld (blend w) (stdout w ++ ["No arguments passed after --"])
               (files w)) /\
  exit_status (main parse_args json_loads argv w) = Some 0.
Proof.
  intros Hsep. unfold main.
  destruct (existsb (String.eqb "--") argv) eqn:E.
  - apply separator_spec in E. contradiction.
  - split; reflexivity.
Qed.

Lemma no_separator_returns_witness :
  let argv := ["blender"; "--background"] in
  main parse_exact loads_empty_object argv empty_world
  = Done tt (mkWorld (blend empty_world) ["No arguments passed after --"]
               (files empty_world)) /\
  exit_status (main parse_exact loads_empty_object argv empty_world) = Some 0.
Proof.
  apply (no_separator_returns parse_exact loads_empty_object
           ["blender"; "--background"] empty_world).
  apply (bool_decide_unpack _). vm_compute. exact I.
Defined.



(** * Further properties of the script *)

(** X1.  A metallic material has metallic 1.0 on its principled shader,
    the base color and roughness of the parameters, and no transmission or
    emission input. *)
Theorem metallic_material (m : MaterialSpec) (w : World) :
  m_type m = "metallic" ->
  exists w' x,
    create_material (py_material m) w = Done (length (materials (blend w))) w' /\
    materials (blend w') !! length (materials (blend w)) = Some x /\
    shader_input x "Metallic" = Some (PFloat 1.0) /\
    shader_input x "Base Color" = Some (py_vec4 (m_color m)) /\
    shader_input x "Roughness" = Some (py_number (m_roughness m)) /\
    shader_input x "Transmission" = None /\
    shader_input x "Emission" = None /\
    shader_input x "Emission Strength" = None.
Proof.
  intros Ht. destruct w as [[os ms a cam rs] so fs].
  unfold create_material, py_material. rewrite Ht. run.
  eexists _, _. split; [reflexivity |].
  cbn [materials blend]. rewrite lookup_snoc. split; [reflexivity |].
  repeat split; vm_compute; reflexivity.
Qed.

Lemma metallic_material_witness :
  let m := a_material red_sphere in
  exists w' x,
    create_material (py_material m) empty_world = Done O w' /\
    materials (blend w') !! O = Some x /\
    shader_input x "Metallic" = Some (PFloat 1.0) /\
    shader_input x "Base Color" = Some (py_vec4 (m_color m)) /\
    shader_input x "Roughness" = Some (py_number (m_roughness m)) /\
    shader_input x "Transmission" = None /\
    shader_input x "Emission" = None /\
    shader_input x "Emission Strength" = None.
Proof.
  apply (metallic_material (a_material red_sphere) empty_world). reflexivity.
Defined.

(** X2.  An emissive material keeps the base color and roughness of the
    parameters and adds, on the same shader, an emission of that same color
    with strength 5.0. *)
Theorem emissive_material (m : MaterialSpec) (w : World) :
  m_type m = "emissive" ->
  exists w' x,
    create_material (py_material m) w = Done (length (materials (blend w))) w' /\
    materials (blend w') !! length (materials (blend w)) = Some x /\
    shader_input x "Emission" = Some (py_vec4 (m_color m)) /\
    shader_input x "Emission Strength" = Some (PFloat 5.0) /\
    shader_input x "Base Color" = Some (py_vec4 (m_color m)) /\
    shader_input x "Roughness" = Some (py_number (m_roughness m)) /\
    shader_input x "Metallic" = None /\
    shader_input x "Transmission" = None.
Proof.
  intros Ht. destruct w as [[os ms a cam rs] so fs].
  unfold create_material, py_material. rewrite Ht. run.
  eexists _, _. split; [reflexivity |].
  cbn [materials blend]. rewrite lookup_snoc. split; [reflexivity |].
  repeat split; vm_compute; reflexivity.
Qed.

Lemma emissive_material_witness :
  let m := mkMaterialSpec (Int 0, Int 1, Int 1, Int 1) (Float 0.25) "emissive" in
  exists w' x,
    create_material (py_material m) empty_world = Done O w' /\
    materials (blend w') !! O = Some x /\
    shader_input x "Emission" = Some (py_vec4 (m_color m)) /\
    shader_input x "Emission Strength" = Some (PFloat 5.0) /\
    shader_input x "Base Color" = Some (py_vec4 (m_color m)) /\
    shader_input x "Roughness" = Some (py_number (m_roughness m)) /\
    shader_input x "Metallic" = None /\
    shader_input x "Transmission" = None.
Proof.
  apply (emissive_material
           (mkMaterialSpec (Int 0, Int 1, Int 1, Int 1) (Float 0.25) "emissive")
           empty_world).
  reflexivity.
Defined.

(** X3.  Whatever the parameters are, and whether it returns or raises,
    [create_material] adds exactly one material, named AvatarMaterial, with
    an output node and a principled shader linked to it, after the materials
    that were there; it changes no other material, no object, and nothing
    else of the engine, prints nothing and writes no file. *)
Theorem create_material_frame (params : value) (w : World) :
  exists x,
    final (create_material params w)
    = mkWorld
        (mkBlend (objects (blend w)) (materials (blend w) ++ [x])
           (active_object (blend w)) (scene_camera (blend w)) (render (blend w)))
        (stdout w) (files w) /\
    mat_name x = "AvatarMaterial" /\
    map bl_idname (nodes x)
    = ["ShaderNodeOutputMaterial"; "ShaderNodeBsdfPrincipled"] /\
    links x = [mkLink 1 "BSDF" 0 "Surface"].
Proof.
  destruct w as [[os ms a cam rs] so fs].
  unfold create_material. run.
  destruct (getitem params "color") as [c | e1]; run;
    [| eexists; repeat split; reflexivity].
  destruct (getitem params "roughness") as [r | e2]; run;
    [| eexists; repeat split; reflexivity].
  destruct (getitem params "type") as [t | e3]; run;
    [| eexists; repeat split; reflexivity].
  destruct (eq_str t "metallic"); run; [eexists; repeat split; reflexivity |].
  destruct (eq_str t "glass"); run; [eexists; repeat split; reflexivity |].
  destruct (eq_str t "emissive"); run; eexists; repeat split; reflexivity.
Qed.

(** X4.  A missing [color], [roughness] or [type] raises [KeyError] for
    the first of them that is missing, in that order, and only after the
    material was registered: it stays behind, with the inputs assigned
    before the exception. *)
Theorem create_material_missing_key (params : value) (w : World) :
  let bare inputs :=
    mkMaterial "AvatarMaterial" true
      [mkNode "ShaderNodeOutputMaterial" ∅;
       mkNode "ShaderNodeBsdfPrincipled" inputs]
      [mkLink 1 "BSDF" 0 "Surface"] in
  let registered o x :=
    materials (blend (final o)) = materials (blend w) ++ [x] in
  let o := create_material params w in
  (missing "color" params ->
   exists w', o = Raised (KeyError "color") w' /\ registered o (bare ∅)) /\
  (forall c, getitem params "color" = Val c -> missing "roughness" params ->
   exists w', o = Raised (KeyError "roughness") w' /\
              registered o (bare (<["Base Color" := c]> ∅))) /\
  (forall c r, getitem params "color" = Val c ->
   getitem params "roughness" = Val r -> missing "type" params ->
   exists w', o = Raised (KeyError "type") w' /\
              registered o
                (bare (<["Roughness" := r]> (<["Base Color" := c]> ∅)))).
Proof.
  destruct w as [[os ms a cam rs] so fs]. cbn zeta. unfold missing.
  split; [| split].
  - intros Hc. unfold create_material. run. rewrite Hc. run.
    eexists. split; reflexivity.
  - intros c Hc Hr. unfold create_material. run. rewrite Hc. run.
    rewrite Hr. run. eexists. split; reflexivity.
  - intros c r Hc Hr Ht. unfold create_material. run. rewrite Hc. run.
    rewrite Hr. run. rewrite Ht. run. eexists. split; reflexivity.
Qed.

Lemma read_object_here os i o ms a c r so fs :
  os !! i = Some o ->
  read_object (Some i) (mkWorld (mkBlend os ms a c r) so fs)
  = Done o (mkWorld (mkBlend os ms a c r) so fs).
Proof. intros H. unfold read_object, bind, get_blend. simpl. rewrite H. reflexivity. Qed.

Lemma update_object_here f os i o ms a c r so fs :
  os !! i = Some o ->
  update_object (Some i) f (mkWorld (mkBlend os ms a c r) so fs)
  = match f o with
    | Val o' => Done tt (mkWorld (mkBlend (<[i := o']> os) ms a c r) so fs)
    | Exn e => Raised e (mkWorld (mkBlend os ms a c r) so fs)
    end.
Proof.
  intros H. unfold update_object, bind. rewrite (read_object_here _ _ _ _ _ _ _ _ _ H).
  destruct (f o); reflexivity.
Qed.

(** X5.  With an unrecognized type, in a scene that has an active mesh
    object, [create_geometry] builds nothing and works on that object: it
    gets the wireframe modifier (if asked for) and the material, and is
    returned. *)
Theorem create_geometry_reuses_active (g : GeometrySpec) (mat : nat) (w : World)
    (i : nat) (o : Object) (prim : Primitive) (mats : list nat) :
  recognized (g_type g) = false ->
  active_object (blend w) = Some i ->
  objects (blend w) !! i = Some o ->
  data o = Mesh prim mats ->
  let o' :=
    mkObject (Mesh prim (mats ++ [mat])) (location o) (rotation_euler o)
      (scale o) (modifiers o ++ wire (g_wireframe g)) (hide_render o)
      (select o) in
  create_geometry (py_geometry g) mat w
  = Done (Some i)
      (mkWorld
         (mkBlend (<[i := o']> (objects (blend w))) (materials (blend w))
            (Some i) (scene_camera (blend w)) (render (blend w)))
         (stdout w) (files w)).
Proof.
  intros Ht Hact Hobj Hdata. apply unrecognized_tests in Ht as (H1 & H2 & H3 & H4).
  destruct w as [[os ms a cam rs] so fs]. cbn in Hact, Hobj. subst a.
  assert (i < length os)%nat as Hlt by (apply lookup_lt_is_Some; eauto).
  destruct o as [d loc rot sc mods hr sel]. cbn in Hdata. subst d.
  cbn zeta. cbn [location rotation_euler scale modifiers hide_render select].
  unfold create_geometry, py_geometry. run. rewrite H1, H2, H3, H4. run.
  destruct (g_wireframe g); run;
    repeat (progress
              (first [ rewrite (read_object_here _ _ _ _ _ _ _ _ _ Hobj)
                     | rewrite (update_object_here _ _ _ _ _ _ _ _ _ _ Hobj)
                     | erewrite read_object_here
                         by (apply list_lookup_insert_eq; rewrite ?length_insert; exact Hlt)
                     | erewrite update_object_here
                         by (apply list_lookup_insert_eq; rewrite ?length_insert; exact Hlt) ];
               run; rewrite ?list_insert_insert_eq, ?lookup_snoc, ?insert_snoc; run));
    unfold wire; rewrite ?app_nil_r; reflexivity.
Qed.

Lemma create_geometry_reuses_active_witness :
  let g := a_geometry pyramid_wire in
  let o := mkObject (Mesh Cube []) None None None [] false true in
  let w := mkWorld (mkBlend [o] [] (Some O) None (render (blend empty_world)))
             [] ∅ in
  create_geometry (py_geometry g) 7 w
  = Done (Some O)
      (mkWorld
         (mkBlend
            (<[O := mkObject (Mesh Cube ([] ++ [7%nat])) None None None
                      ([] ++ wire (g_wireframe g)) false true]> [o])
            [] (Some O) None (render (blend empty_world)))
         [] ∅).
Proof.
  apply (create_geometry_reuses_active (a_geometry pyramid_wire) 7
           (mkWorld
              (mkBlend [mkObject (Mesh Cube []) None None None [] false true] []
                 (Some O) None (render (blend empty_world))) [] ∅)
           O (mkObject (Mesh Cube []) None None None [] false true) Cube []);
    reflexivity.
Defined.

(** X6.  [wireframe] is tested for truth, not for being [True]: for a
    recognized type and any JSON value, the new object has a wireframe
    modifier exactly when the value is truthy (so the string ["false"]
    asks for one), and it gets the material either way. *)
Theorem wireframe_is_truthiness (t : string) (n v : value) (mat : nat) (w : World) :
  recognized t = true ->
  let params :=
    PDict [("type", PStr t); ("subdivisions", n); ("wireframe", v)] in
  let i := length (objects (blend w)) in
  exists w' o,
    create_geometry params mat w = Done (Some i) w' /\
    objects (blend w') !! i = Some o /\
    existsb is_wireframe (modifiers o) = truthy v /\
    object_materials o = [mat].
Proof.
  intros Ht. destruct w as [[os ms a cam rs] so fs]. cbn zeta.
  unfold create_geometry.
  split_type t Ht; run; destruct (truthy v) eqn:Hv; run; tidy;
    (eexists _, _; split; [reflexivity |]; cbn [objects blend]; split;
     [apply lookup_snoc_at; symmetry; apply length_map |]);
    split; reflexivity.
Qed.

Lemma wireframe_is_truthiness_witness :
  let params :=
    PDict [("type", PStr "torus"); ("subdivisions", PNone);
           ("wireframe", PStr "false")] in
  exists w' o,
    create_geometry params 0 empty_world = Done (Some O) w' /\
    objects (blend w') !! O = Some o /\
    existsb is_wireframe (modifiers o) = truthy (PStr "false") /\
    object_materials o = [O].
Proof.
  apply (wireframe_is_truthiness "torus" PNone (PStr "false") O empty_world).
  reflexivity.
Defined.

(** X7.  Without [subdivisions], an icosahedron raises [KeyError] before
    anything is built, while a cube raises it after the cube and its
    subdivision modifier (level unset) were added to the scene. *)
Theorem missing_subdivisions (wireframe : value) (mat : nat) (w : World) :
  let params t := PDict [("type", PStr t); ("wireframe", wireframe)] in
  create_geometry (params "icosahedron") mat w
  = Raised (KeyError "subdivisions") w /\
  exists cube,
    create_geometry (params "cube") mat w
    = Raised (KeyError "subdivisions")
        (mkWorld
           (mkBlend (map (set_select false) (objects (blend w)) ++ [cube])
              (materials (blend w)) (Some (length (objects (blend w))))
              (scene_camera (blend w)) (render (blend w)))
           (stdout w) (files w)) /\
    data cube = Mesh Cube [] /\
    modifiers cube = [Subsurf "Subsurf" None].
Proof.
  destruct w as [[os ms a cam rs] so fs]. cbn zeta. split.
  - reflexivity.
  - unfold create_geometry. run. tidy. eexists. repeat split; reflexivity.
Qed.

(** X8.  On any scene [setup_lighting] keeps the objects that are there
    (deselected), and appends an area light of energy 500 at (5, 5, 5), a
    point light of energy 200 and color (0, 0.5, 1) at (-5, -5, 2), and a
    spot light of energy 1000 at (0, 5, -5) turned by 135 degrees about x,
    which is left selected and active; materials, scene camera and render
    settings are untouched. *)
Theorem lighting_rig (w : World) :
  exists key fill rim,
    setup_lighting w
    = Done tt
        (mkWorld
           (mkBlend
              (map (set_select false) (objects (blend w)) ++ [key; fill; rim])
              (materials (blend w))
              (Some (length (objects (blend w)) + 2)%nat)
              (scene_camera (blend w)) (render (blend w)))
           (stdout w) (files w)) /\
    key = mkObject (Light "AREA" (Some (PInt 500)) None)
            (Some (PTuple [PInt 5; PInt 5; PInt 5])) None None [] false false /\
    fill = mkObject
             (Light "POINT" (Some (PInt 200))
                (Some (PTuple [PFloat 0.0; PFloat 0.5; PFloat 1.0])))
             (Some (PTuple [PInt (-5); PInt (-5); PInt 2])) None None []
             false false /\
    rim = mkObject (Light "SPOT" (Some (PInt 1000)) None)
            (Some (PTuple [PInt 0; PInt 5; PInt (-5)]))
            (Some (PTuple [PFloat 2.356194490192345; PInt 0; PInt 0])) None []
            false true.
Proof.
  destruct w as [[os ms a cam rs] so fs].
  unfold setup_lighting. run. tidy.
  eexists _, _, _. split; [reflexivity |].
  split; [reflexivity |]. split; [reflexivity |]. vm_compute. reflexivity.
Qed.

(** X9.  On any scene [setup_camera] appends a camera at (0, -8, 4)
    turned by 60 degrees about x, and makes that new object both the active
    object and the scene camera, replacing whatever camera the scene had. *)
Theorem camera_is_registered (w : World) :
  let i := length (objects (blend w)) in
  exists cam,
    setup_camera w
    = Done tt
        (mkWorld
           (mkBlend (map (set_select false) (objects (blend w)) ++ [cam])
              (materials (blend w)) (Some i) (Some i) (render (blend w)))
           (stdout w) (files w)) /\
    cam = mkObject Camera (Some (PTuple [PInt 0; PInt (-8); PInt 4]))
            (Some (PTuple [PFloat 1.0471975511965976; PInt 0; PInt 0])) None []
            false true.
Proof.
  destruct w as [[os ms a cam rs] so fs].
  unfold setup_camera. run. tidy.
  eexists. split; [reflexivity |]. vm_compute. reflexivity.
Qed.

Lemma lookup_past_map {A} (f : A -> A) (l xs : list A) (k : nat) :
  (map f l ++ xs) !! (length l + k)%nat = xs !! k.
Proof. rewrite <- (length_map f l). apply lookup_past. Qed.

(** X10.  [create_particles] appends an emitter plane and a prototype
    sphere, both hidden from render, and one material.  The particle
    system holds the count of the parameters, one frame, no physics, and
    instances the prototype: its reference is the position of the
    prototype in the scene, and the prototype's material is the new one,
    an emission of the particle color (with alpha 1.0) at strength 10. *)
Theorem particle_environment (e : EnvironmentSpec) (w : World) :
  let n := length (objects (blend w)) in
  let k := length (materials (blend w)) in
  exists emitter proto pm w',
    create_particles (py_environment e) w = Done tt w' /\
    objects (blend w')
    = map (set_select false) (objects (blend w)) ++ [emitter; proto] /\
    materials (blend w') = materials (blend w) ++ [pm] /\
    active_object (blend w') = Some (n + 1)%nat /\
    scene_camera (blend w') = scene_camera (blend w) /\
    render (blend w') = render (blend w) /\
    files w' = files w /\
    emitter
    = mkObject (Mesh (Plane (Some (PInt 10))) [])
        (Some (PTuple [PInt 0; PInt 0; PInt 0])) None None
        [ParticleSystem "Particles"
           (mkParticleSettings (Some (PInt (Z.of_N (e_particleCount e))))
              (Some (PInt 1)) (Some (PInt 1)) (Some (PInt 100))
              (Some (PStr "NO")) (Some (PStr "OBJECT")) (Some (n + 1)%nat))]
        true false /\
    proto
    = mkObject (Mesh (IcoSphere None (Some (PFloat 0.1))) [k]) None None None
        [] true true /\
    pm
    = mkMaterial "ParticleMat" true
        [mkNode "ShaderNodeOutputMaterial" ∅;
         mkNode "ShaderNodeEmission"
           (<["Strength" := PFloat 10.0]>
              (<["Color" :=
                   let '(r, g, b) := e_particleColor e in
                   PTuple [py_number r; py_number g; py_number b; PFloat 1.0]]>
                 ∅))]
        [mkLink 1 "Emission" 0 "Surface"] /\
    objects (blend w') !! (n + 1)%nat = Some proto /\
    materials (blend w') !! k = Some pm.
Proof.
  destruct e as [pn [[pr pg] pb]], w as [[os ms a cam rs] so fs]. cbn zeta.
  unfold create_particles, py_environment. run. tidy.
  eexists _, _, _, _. split; [reflexivity |].
  cbn [objects materials blend active_object scene_camera render files
       e_particleCount e_particleColor].
  repeat (split; [reflexivity |]). split.
  - rewrite lookup_past_map. reflexivity.
  - apply lookup_snoc.
Qed.

Lemma radians_number_error (n : number) (e : exn) :
  radians (py_number n) = Exn e -> e = OverflowError.
Proof.
  destruct n as [z | f]; cbn [py_number radians]; [| discriminate].
  unfold radians_int. destruct (PrimFloat.is_infinity _); congruence.
Qed.

Lemma radians_each_error (l : list number) (e : exn) :
  radians_each (map py_number l) = Exn e -> e = OverflowError.
Proof.
  induction l as [| n l IH]; cbn [map]; unfold radians_each; fold radians_each;
    [discriminate |].
  destruct (radians (py_number n)) eqn:E.
  - destruct (radians_each (map py_number l)); [discriminate |].
    intros [= <-]. apply IH. reflexivity.
  - intros [= <-]. apply (radians_number_error _ _ E).
Qed.

(** X11.  From an engine whose scene holds no object (and any materials),
    for a recognized geometry type whose rotation converts to radians,
    [compose] returns and leaves this scene: the body followed by three
    lights, the camera, the emitter and the prototype; the body carries the
    avatar material, the rotation in radians and the scale on all three
    axes; the prototype is the active object and the camera the scene
    camera; the render settings are the fixed ones. *)
Theorem compose_builds_avatar (a : AvatarSpec) (out : string) (w : World)
    (euler : list value) :
  objects (blend w) = [] ->
  recognized (g_type (a_geometry a)) = true ->
  radians_each (map py_number (rotation_list a)) = Val euler ->
  let ms := materials (blend w) in
  let s := py_number (t_scale (a_transform a)) in
  exists body rig x pm w',
    compose (py_avatar a) out w = Done tt w' /\
    blend w'
    = mkBlend (body :: rig) (ms ++ [x; pm]) (Some 6%nat) (Some 4%nat)
        (mkRender "CYCLES" 32 1024 1024 true) /\
    rotation_euler body = Some (PList euler) /\
    scale body = Some (PTuple [s; s; s]) /\
    object_materials body = [length ms] /\
    mat_name x = "AvatarMaterial" /\
    map data rig
    = [Light "AREA" (Some (PInt 500)) None;
       Light "POINT" (Some (PInt 200))
         (Some (PTuple [PFloat 0.0; PFloat 0.5; PFloat 1.0]));
       Light "SPOT" (Some (PInt 1000)) None;
       Camera;
       Mesh (Plane (Some (PInt 10))) [];
       Mesh (IcoSphere None (Some (PFloat 0.1))) [S (length ms)]].
Proof.
  intros _ Ht Hrot. destruct w as [[os ms act cam rs] so fs]. cbn zeta.
  cbn [materials blend stdout files].
  destruct (create_material_run (a_material a) [] ms None None rs so fs)
    as (x & E & Hx).
  destruct (create_geometry_run (a_geometry a) (length ms) [] (ms ++ [x])
              None None rs so fs Ht) as (body & EG & HG).
  pose proof (compose_transform a [] body (ms ++ [x]) None rs so fs) as ET.
  cbn zeta in ET. unfold rotation_list in Hrot. rewrite Hrot in ET.
  destruct (compose_finish a out
              ([] ++ [set_scale
                        (PTuple [py_number (t_scale (a_transform a));
                                 py_number (t_scale (a_transform a));
                                 py_number (t_scale (a_transform a))])
                        (set_rotation_euler (PList euler) body)])
              (ms ++ [x]) (Some (length (@nil Object))) None rs so fs)
    as (rig & pm & EF & HF1 & _).
  eexists _, rig, x, pm, _.
  split; [| split; [| split; [| split; [| split; [| split]]]]].
  - enter_compose E. rewrite (bind_run _ _ _ _ _ EG). cbn match.
    change (deselect (@nil Object)) with (@nil Object).
    rewrite (bind_run _ _ _ _ _ ET). rewrite EF. reflexivity.
  - cbn [blend app map length Nat.add]. rewrite <- app_assoc. reflexivity.
  - reflexivity.
  - reflexivity.
  - destruct body. exact HG.
  - exact Hx.
  - rewrite HF1, length_app, Nat.add_1_r. reflexivity.
Qed.

Lemma compose_builds_avatar_witness :
  let a := red_sphere in
  let w := empty_world in
  let ms := materials (blend w) in
  let s := py_number (t_scale (a_transform a)) in
  exists body rig x pm w',
    compose (py_avatar a) "avatar.blend" w = Done tt w' /\
    blend w'
    = mkBlend (body :: rig) (ms ++ [x; pm]) (Some 6%nat) (Some 4%nat)
        (mkRender "CYCLES" 32 1024 1024 true) /\
    rotation_euler body = Some (PList [PFloat 0; PFloat 0; PFloat 0]) /\
    scale body = Some (PTuple [s; s; s]) /\
    object_materials body = [length ms] /\
    mat_name x = "AvatarMaterial" /\
    map data rig
    = [Light "AREA" (Some (PInt 500)) None;
       Light "POINT" (Some (PInt 200))
         (Some (PTuple [PFloat 0.0; PFloat 0.5; PFloat 1.0]));
       Light "SPOT" (Some (PInt 1000)) None;
       Camera;
       Mesh (Plane (Some (PInt 10))) [];
       Mesh (IcoSphere None (Some (PFloat 0.1))) [S (length ms)]].
Proof.
  apply (compose_builds_avatar red_sphere "avatar.blend" empty_world
           [PFloat 0; PFloat 0; PFloat 0]).
  - reflexivity.
  - reflexivity.
  - vm_compute. reflexivity.
Defined.

(** X12.  For a recognized geometry type, from an engine whose scene holds
    no object: the only way the rotation of the specification can fail is
    an integer too large for a float, and then [compose] stops with
    [OverflowError] after the body was built and before any light: the
    scene holds that one object and no file is written.  (With an
    unrecognized type the rotation is never read.) *)
Theorem compose_rotation_overflow (a : AvatarSpec) (out : string) (w : World)
    (e : exn) :
  objects (blend w) = [] ->
  recognized (g_type (a_geometry a)) = true ->
  radians_each (map py_number (rotation_list a)) = Exn e ->
  e = OverflowError /\
  exists w',
    compose (py_avatar a) out w = Raised OverflowError w' /\
    length (objects (blend w')) = 1%nat /\
    files w' = files w.
Proof.
  intros _ Ht Hrot. split; [exact (radians_each_error _ _ Hrot) |].
  rewrite (radians_each_error _ _ Hrot) in Hrot.
  destruct w as [[os ms act cam rs] so fs].
  destruct (create_material_run (a_material a) [] ms None None rs so fs)
    as (x & E & Hx).
  destruct (create_geometry_run (a_geometry a) (length ms) [] (ms ++ [x])
              None None rs so fs Ht) as (body & EG & HG).
  pose proof (compose_transform a [] body (ms ++ [x]) None rs so fs) as ET.
  cbn zeta in ET. unfold rotation_list in Hrot. rewrite Hrot in ET.
  eexists. split; [| split].
  - enter_compose E. rewrite (bind_run _ _ _ _ _ EG). cbn match.
    change (deselect (@nil Object)) with (@nil Object).
    apply bind_raise. exact ET.
  - reflexivity.
  - reflexivity.
Qed.

Lemma compose_rotation_overflow_witness :
  OverflowError = OverflowError /\
  exists w',
    compose (py_avatar spinning_cube) "avatar.blend" empty_world
    = Raised OverflowError w' /\
    length (objects (blend w')) = 1%nat /\
    files w' = files empty_world.
Proof.
  apply (compose_rotation_overflow spinning_cube "avatar.blend" empty_world
           OverflowError).
  - reflexivity.
  - reflexivity.
  - vm_compute. reflexivity.
Defined.



(** [compose] on a specification appends to the engine's materials. *)
Lemma compose_appends_materials (a : AvatarSpec) (out : string) (w : World) :
  exists x rest,
    materials (blend (final (compose (py_avatar a) out w)))
    = materials (blend w) ++ x :: rest.
Proof.
  destruct (recognized (g_type (a_geometry a))) eqn:Ht.
  - destruct (compose_with_body a out w Ht) as (x & _ & _ & rest & Hrest).
    exists x, rest. exact Hrest.
  - destruct (g_wireframe (a_geometry a)) eqn:Hw.
    + destruct (compose_aborts a out w Ht Hw) as (x & _ & _ & EC).
      exists x, []. rewrite EC. reflexivity.
    + destruct (compose_without_body a out w Ht Hw)
        as (x & pm & rig & _ & _ & EC & _).
      exists x, [pm]. rewrite EC. reflexivity.
Qed.

(** X14.  [compose] never removes a material: however a run on a
    specification ends, the materials the engine held before are still
    there, unchanged and in their places, followed by at least one new one
    ([clean_scene] deletes objects, not materials).  So materials pile up
    over the runs of one engine: after a second run, on any specification,
    there are at least two more than before the first. *)
Theorem compose_keeps_materials (a : AvatarSpec) (out : string) (w : World) :
  (exists x rest,
     materials (blend (final (compose (py_avatar a) out w)))
     = materials (blend w) ++ x :: rest) /\
  forall (b : AvatarSpec) (out' : string),
    (length (materials (blend w)) + 2
     <= length (materials
                  (blend (final (compose (py_avatar b) out'
                                   (final (compose (py_avatar a) out w)))))))%nat.
Proof.
  split; [apply compose_appends_materials |]. intros b out'.
  destruct (compose_appends_materials a out w) as (x & rest & E).
  destruct (compose_appends_materials b out'
              (final (compose (py_avatar a) out w))) as (x' & rest' & E').
  rewrite E', E, !length_app. cbn [length]. lia.
Qed.

Lemma index_after (pre : list string) (args : list string) :
  "--" ∉ pre ->
  index "--" (pre ++ "--" :: args) = length pre.
Proof.
  induction pre as [| x pre IH]; intros Hpre; [reflexivity |].
  apply not_elem_of_cons in Hpre as [Hx Hpre]. cbn [app index].
  rewrite (eqb_ne _ _ (not_eq_sym Hx)). cbn [length]. f_equal. apply IH, Hpre.
Qed.

(** X15.  [main] reads only what follows the first ["--"]: the arguments
    before it are ignored, and the rest goes to the argument parser as it
    is.  If the parser exits, [main] ends with its status and the engine
    untouched; if the text does not decode, with status 1; otherwise it
    composes the decoded parameters. *)
Theorem main_reads_after_first_separator parse_args json_loads
    (pre args : list string) (w : World) :
  "--" ∉ pre ->
  main parse_args json_loads (pre ++ "--" :: args) w
  = match parse_args args with
    | Exits status => Raised (SystemExit status) w
    | Namespace output params =>
        match json_loads params with
        | None =>
            Raised (SystemExit 1)
              (mkWorld (blend w) (stdout w ++ ["Invalid JSON params"]) (files w))
        | Some params => compose params output w
        end
    end.
Proof.
  intros Hpre. unfold main.
  assert (existsb (String.eqb "--") (pre ++ "--" :: args) = true) as ->.
  { apply separator_spec. apply elem_of_app. right. left. }
  cbn [negb]. rewrite (index_after _ _ Hpre).
  replace (drop (S (length pre)) (pre ++ "--" :: args)) with args.
  - destruct (parse_args args); [| reflexivity].
    destruct (json_loads params); reflexivity.
  - change (pre ++ "--" :: args) with (pre ++ ["--"] ++ args).
    rewrite app_assoc. rewrite drop_app_length'; [reflexivity |].
    rewrite length_app. cbn. lia.
Qed.

Lemma main_reads_after_first_separator_witness :
  main parse_exact loads_empty_object
    (["blender"; "--background"] ++
     "--" :: ["--output"; "avatar.blend"; "--params"; "{}"; "--"]) empty_world
  = match parse_exact ["--output"; "avatar.blend"; "--params"; "{}"; "--"] with
    | Exits status => Raised (SystemExit status) empty_world
    | Namespace output params =>
        match loads_empty_object params with
        | None =>
            Raised (SystemExit 1)
              (mkWorld (blend empty_world)
                 (stdout empty_world ++ ["Invalid JSON params"])
                 (files empty_world))
        | Some params => compose params output empty_world
        end
    end.
Proof.
  apply (main_reads_after_first_separator parse_exact loads_empty_object
           ["blender"; "--background"]
           ["--output"; "avatar.blend"; "--params"; "{}"; "--"] empty_world).
  apply (bool_decide_unpack _). vm_compute. exact I.
Defined.

(** * The route remover *)

Lemma routes_loop (lines : list string) (skip_mode : bool) (acc : list string) :
  snd (fold_left Routes.step lines (skip_mode, acc))
  = acc ++ Routes.scan skip_mode lines.
Proof.
  revert skip_mode acc.
  induction lines as [| line rest IH]; intros skip_mode acc;
    cbn [fold_left Routes.scan]; [rewrite app_nil_r; reflexivity |].
  unfold Routes.step at 2.
  destruct (Routes.any_in Routes.skip_start_markers line); [apply IH |].
  destruct skip_mode; cbn [andb].
  - destruct (Routes.any_in Routes.skip_end_markers line); rewrite IH;
      [rewrite <- app_assoc |]; reflexivity.
  - rewrite IH, <- app_assoc. reflexivity.
Qed.

Lemma routes_output_scan (lines : list string) :
  Routes.output_lines lines = Routes.scan false lines.
Proof. unfold Routes.output_lines. apply routes_loop. Qed.

Lemma routes_scan_clean (lines : list string) :
  Forall (fun l => Routes.any_in Routes.skip_start_markers l = false) lines ->
  Routes.scan false lines = lines.
Proof.
  induction 1 as [| l lines Hl _ IH]; cbn [Routes.scan]; [reflexivity |].
  rewrite Hl. cbn [andb]. f_equal. exact IH.
Qed.

Lemma routes_scan_no_start (skip_mode : bool) (lines : list string) :
  Forall (fun l => Routes.any_in Routes.skip_start_markers l = false)
    (Routes.scan skip_mode lines).
Proof.
  revert skip_mode.
  induction lines as [| l rest IH]; intros skip_mode; cbn [Routes.scan];
    [constructor |].
  destruct (Routes.any_in Routes.skip_start_markers l) eqn:Hl; [apply IH |].
  destruct skip_mode; cbn [andb].
  - destruct (Routes.any_in Routes.skip_end_markers l);
      [constructor; [exact Hl | apply IH] | apply IH].
  - constructor; [exact Hl | apply IH].
Qed.

Lemma routes_scan_sublist (skip_mode : bool) (lines : list string) :
  Routes.scan skip_mode lines `sublist_of` lines.
Proof.
  revert skip_mode.
  induction lines as [| l rest IH]; intros skip_mode; cbn [Routes.scan];
    [constructor |].
  destruct (Routes.any_in Routes.skip_start_markers l);
    [apply sublist_cons, IH |].
  destruct skip_mode; cbn [andb].
  - destruct (Routes.any_in Routes.skip_end_markers l);
      [apply sublist_skip, IH | apply sublist_cons, IH].
  - apply sublist_skip, IH.
Qed.

Lemma routes_scan_skipping (lines : list string) :
  Forall (fun l => Routes.any_in Routes.skip_end_markers l = false) lines ->
  Routes.scan true lines = [].
Proof.
  induction 1 as [| l lines Hl _ IH]; cbn [Routes.scan]; [reflexivity |].
  rewrite Hl, IH. destruct (Routes.any_in Routes.skip_start_markers l);
    reflexivity.
Qed.

Lemma routes_scan_app (pre rest : list string) :
  Forall (fun l => Routes.any_in Routes.skip_start_markers l = false) pre ->
  Routes.scan false (pre ++ rest) = pre ++ Routes.scan false rest.
Proof.
  induction 1 as [| l pre Hl _ IH]; cbn [Routes.scan app]; [reflexivity |].
  rewrite Hl. cbn [andb]. f_equal. exact IH.
Qed.

Lemma routes_scan_skip_app (mid rest : list string) :
  Forall (fun l => Routes.any_in Routes.skip_end_markers l = false) mid ->
  Routes.scan true (mid ++ rest) = Routes.scan true rest.
Proof.
  induction 1 as [| l mid Hl _ IH]; cbn [Routes.scan app]; [reflexivity |].
  rewrite Hl, IH. destruct (Routes.any_in Routes.skip_start_markers l);
    reflexivity.
Qed.

Lemma routes_output_fixed (lines : list string) :
  Routes.output_lines (Routes.output_lines lines) = Routes.output_lines lines.
Proof.
  rewrite !routes_output_scan. apply routes_scan_clean, routes_scan_no_start.
Qed.

(** Reading and writing. *)

Lemma append_empty (line : string) : line +:+ EmptyString = line.
Proof.
  induction line as [| c line IH]; [reflexivity |].
  change (String c (line +:+ EmptyString) = String c line). f_equal. exact IH.
Qed.

Lemma writelines_readlines (content : string) :
  Routes.writelines (Routes.readlines content) = content.
Proof.
  induction content as [| c rest IH]; [reflexivity |].
  cbn [Routes.readlines].
  destruct (Ascii.eqb c Text.newline).
  - change (String c (Routes.writelines (Routes.readlines rest)) = String c rest).
    f_equal. exact IH.
  - destruct (Routes.readlines rest) as [| line lines].
    + change (EmptyString = rest) in IH. subst rest. reflexivity.
    + change (line +:+ Routes.writelines lines = rest) in IH.
      change (String c (line +:+ Routes.writelines lines) = String c rest).
      f_equal. exact IH.
Qed.

Lemma readlines_ends_line (line rest : string) :
  Routes.ends_line line = true ->
  Routes.readlines (line +:+ rest) = line :: Routes.readlines rest.
Proof.
  induction line as [| c line IH]; [discriminate |].
  cbn [Routes.ends_line].
  change (String c line +:+ rest) with (String c (line +:+ rest)).
  cbn [Routes.readlines].
  destruct (Ascii.eqb c Text.newline).
  - destruct line; [reflexivity | discriminate].
  - intros H. rewrite (IH H). reflexivity.
Qed.

Lemma readlines_open_line (line : string) :
  Routes.open_line line = true -> line <> EmptyString ->
  Routes.readlines line = [line].
Proof.
  induction line as [| c line IH]; [congruence |].
  cbn [Routes.open_line Routes.readlines]. intros H _.
  apply andb_prop in H as [Hc H]. apply negb_true_iff in Hc. rewrite Hc.
  destruct line as [| c' line]; [reflexivity |].
  rewrite IH by (exact H || discriminate). reflexivity.
Qed.

Lemma readlines_writelines (lines : list string) :
  Routes.well_formed lines = true ->
  Routes.readlines (Routes.writelines lines) = lines.
Proof.
  induction lines as [| line rest IH]; [reflexivity |].
  cbn [Routes.well_formed].
  change (Routes.writelines (line :: rest))
    with (line +:+ Routes.writelines rest).
  intros H. apply andb_prop in H as [H Hrest].
  apply orb_prop in H as [H | H].
  - rewrite (readlines_ends_line line (Routes.writelines rest) H), (IH Hrest).
    reflexivity.
  - apply andb_prop in H as [H Hnil]. apply andb_prop in H as [Hopen Hne].
    destruct rest; [| discriminate].
    change (Routes.writelines []) with EmptyString. rewrite append_empty.
    apply readlines_open_line; [exact Hopen |].
    intros ->. discriminate.
Qed.

Lemma well_formed_readlines (content : string) :
  Routes.well_formed (Routes.readlines content) = true.
Proof.
  induction content as [| c rest IH]; [reflexivity |].
  cbn [Routes.readlines].
  destruct (Ascii.eqb c Text.newline) eqn:Hc.
  - cbn [Routes.well_formed Routes.ends_line]. rewrite Hc. exact IH.
  - destruct (Routes.readlines rest) as [| line lines].
    + cbn [Routes.well_formed Routes.ends_line Routes.open_line]. rewrite Hc.
      reflexivity.
    + cbn [Routes.well_formed Routes.ends_line Routes.open_line] in IH |- *.
      rewrite Hc. cbn [negb andb]. apply andb_prop in IH as [H Hrest].
      rewrite Hrest, andb_true_r.
      apply orb_prop in H as [-> | H]; [reflexivity |].
      apply andb_prop in H as [H ->]. apply andb_prop in H as [-> _].
      apply orb_true_r.
Qed.

Lemma well_formed_scan (skip_mode : bool) (lines : list string) :
  Routes.well_formed lines = true ->
  Routes.well_formed (Routes.scan skip_mode lines) = true.
Proof.
  revert skip_mode.
  induction lines as [| l rest IH]; intros skip_mode; [reflexivity |].
  cbn [Routes.well_formed Routes.scan]. intros H.
  apply andb_prop in H as [H Hrest].
  assert (forall m, Routes.well_formed (l :: Routes.scan m rest) = true) as keep.
  { intros m. cbn [Routes.well_formed]. rewrite (IH m Hrest), andb_true_r.
    apply orb_prop in H as [-> | H]; [reflexivity |].
    apply andb_prop in H as [-> Hnil]. destruct rest; [| discriminate].
    apply orb_true_r. }
  destruct (Routes.any_in Routes.skip_start_markers l); [apply IH, Hrest |].
  destruct skip_mode; cbn [andb].
  - destruct (Routes.any_in Routes.skip_end_markers l);
      [apply keep | apply IH, Hrest].
  - apply keep.
Qed.

Lemma routes_reads_back (content : string) :
  Routes.readlines
    (Routes.writelines (Routes.output_lines (Routes.readlines content)))
  = Routes.output_lines (Routes.readlines content).
Proof.
  apply readlines_writelines. rewrite routes_output_scan.
  apply well_formed_scan, well_formed_readlines.
Qed.

(** X16.  Cutting a text into lines and writing the lines back gives the
    text again; and the file the script writes, read back, gives exactly
    the lines the loop kept: no two of them run together, whichever lines
    were dropped and whether or not the text ended in a newline. *)
Theorem routes_lines_round_trip (content : string) :
  Routes.writelines (Routes.readlines content) = content /\
  Routes.readlines
    (Routes.writelines (Routes.output_lines (Routes.readlines content)))
  = Routes.output_lines (Routes.readlines content).
Proof. split; [apply writelines_readlines | apply routes_reads_back]. Qed.

(** X17.  A file in which no line holds the start marker is written back
    with the text it had, and the script reports no removed line. *)
Theorem routes_without_marker_unchanged (files : gmap string string)
    (content : string) :
  files !! Routes.path = Some content ->
  Forall (fun l => Routes.any_in Routes.skip_start_markers l = false)
    (Routes.readlines content) ->
  let count := pretty (Z.of_nat (length (Routes.readlines content))) in
  Routes.remove_inline_routes files
  = Text.Finished files
      ["Removed lines: 0";
       "Before: " +:+ count +:+ " lines";
       "After: " +:+ count +:+ " lines"].
Proof.
  intros E H. cbn zeta. unfold Routes.remove_inline_routes. rewrite E.
  rewrite routes_output_scan, (routes_scan_clean _ H), writelines_readlines.
  rewrite (insert_id _ _ _ E), Z.sub_diag. reflexivity.
Qed.

Lemma routes_without_marker_unchanged_witness :
  let content :=
    Routes.text ["import express";
                 "// Helper function to log authentication actions"] in
  let files : gmap string string := {[ Routes.path := content ]} in
  let count := pretty (Z.of_nat (length (Routes.readlines content))) in
  Routes.remove_inline_routes files
  = Text.Finished files
      ["Removed lines: 0";
       "Before: " +:+ count +:+ " lines";
       "After: " +:+ count +:+ " lines"].
Proof.
  apply (routes_without_marker_unchanged
           {[ Routes.path :=
                Routes.text ["import express";
                             "// Helper function to log authentication actions"] ]}
           (Routes.text ["import express";
                         "// Helper function to log authentication actions"])).
  - vm_compute. reflexivity.
  - vm_compute. repeat constructor.
Defined.

(** X18.  The lines kept are lines of the input, in their order; none of
    them holds the start marker; and the count printed as removed is not
    negative. *)
Theorem routes_keeps_a_sublist (lines : list string) :
  Routes.output_lines lines `sublist_of` lines /\
  Forall (fun l => Routes.any_in Routes.skip_start_markers l = false)
    (Routes.output_lines lines) /\
  0 <= Z.of_nat (length lines) - Z.of_nat (length (Routes.output_lines lines)).
Proof.
  rewrite routes_output_scan. split; [apply routes_scan_sublist |].
  split; [apply routes_scan_no_start |].
  pose proof (sublist_length _ _ (routes_scan_sublist false lines)). lia.
Qed.

(** X19.  If no line before it holds the start marker, a line that holds
    the start marker and is followed by no line holding the end marker
    removes everything from itself to the end of the file: exactly the
    lines before it are kept. *)
Theorem routes_unterminated_block (pre rest : list string) (start : string) :
  Forall (fun l => Routes.any_in Routes.skip_start_markers l = false) pre ->
  Routes.any_in Routes.skip_start_markers start = true ->
  Forall (fun l => Routes.any_in Routes.skip_end_markers l = false) rest ->
  Routes.output_lines (pre ++ start :: rest) = pre.
Proof.
  intros Hpre Hstart Hrest. rewrite routes_output_scan, routes_scan_app by exact Hpre.
  cbn [Routes.scan]. rewrite Hstart, routes_scan_skipping by exact Hrest.
  apply app_nil_r.
Qed.

Lemma routes_unterminated_block_witness :
  Routes.output_lines
    (["import express"] ++
     "// CSP Violation Report Endpoint" :: ["app.post(...)"; "export default app"])
  = ["import express"].
Proof.
  apply (routes_unterminated_block ["import express"]
           ["app.post(...)"; "export default app"]
           "// CSP Violation Report Endpoint").
  - repeat constructor.
  - reflexivity.
  - repeat constructor.
Defined.

(** X20.  Let the lines be [pre], a line holding the start marker, [mid], a
    line holding the end marker and not the start marker, and [post], with
    no start marker in [pre] or [post] and no end marker in [mid].  Then
    the block is removed up to, and not including, the end-marker line:
    what is kept is [pre], that line and [post]. *)
Theorem routes_removes_block (pre mid post : list string) (start stop : string) :
  Forall (fun l => Routes.any_in Routes.skip_start_markers l = false) pre ->
  Routes.any_in Routes.skip_start_markers start = true ->
  Forall (fun l => Routes.any_in Routes.skip_end_markers l = false) mid ->
  Routes.any_in Routes.skip_start_markers stop = false ->
  Routes.any_in Routes.skip_end_markers stop = true ->
  Forall (fun l => Routes.any_in Routes.skip_start_markers l = false) post ->
  Routes.output_lines (pre ++ start :: mid ++ stop :: post)
  = pre ++ stop :: post.
Proof.
  intros Hpre Hstart Hmid Hstop1 Hstop2 Hpost.
  rewrite routes_output_scan, routes_scan_app by exact Hpre.
  cbn [Routes.scan]. rewrite Hstart, routes_scan_skip_app by exact Hmid.
  cbn [Routes.scan]. rewrite Hstop1, Hstop2. cbn [andb].
  rewrite routes_scan_clean by exact Hpost. reflexivity.
Qed.

Lemma routes_removes_block_witness :
  Routes.output_lines
    (["import express"] ++
     "// CSP Violation Report Endpoint" ::
     ["app.post(...)"] ++
     "// Helper function to log authentication actions" ::
     ["export default app"])
  = ["import express"] ++
    "// Helper function to log authentication actions" ::
    ["export default app"].
Proof.
  apply (routes_removes_block ["import express"] ["app.post(...)"]
           ["export default app"] "// CSP Violation Report Endpoint"
           "// Helper function to log authentication actions").
  - repeat constructor.
  - reflexivity.
  - repeat constructor.
  - reflexivity.
  - reflexivity.
  - repeat constructor.
Defined.

(** X21.  On an existing file the script writes the kept lines; run again
    on its own result it leaves the file as it is and reports no removed
    line. *)
Theorem routes_second_run (files : gmap string string) (content : string) :
  files !! Routes.path = Some content ->
  let kept := Routes.output_lines (Routes.readlines content) in
  let files' := <[Routes.path := Routes.writelines kept]> files in
  let count := pretty (Z.of_nat (length kept)) in
  exists printed,
    Routes.remove_inline_routes files = Text.Finished files' printed /\
    Routes.remove_inline_routes files'
    = Text.Finished files'
        ["Removed lines: 0";
         "Before: " +:+ count +:+ " lines";
         "After: " +:+ count +:+ " lines"].
Proof.
  intros E. cbn zeta. unfold Routes.remove_inline_routes.
  rewrite E, lookup_insert_eq, routes_reads_back, routes_output_fixed.
  rewrite insert_insert_eq, Z.sub_diag.
  eexists. split; reflexivity.
Qed.

Lemma routes_second_run_witness :
  let content :=
    Routes.text ["import express"; "// CSP Violation Report Endpoint";
                 "app.post(...)"] in
  let files : gmap string string := {[ Routes.path := content ]} in
  let kept := Routes.output_lines (Routes.readlines content) in
  let files' := <[Routes.path := Routes.writelines kept]> files in
  let count := pretty (Z.of_nat (length kept)) in
  exists printed,
    Routes.remove_inline_routes files = Text.Finished files' printed /\
    Routes.remove_inline_routes files'
    = Text.Finished files'
        ["Removed lines: 0";
         "Before: " +:+ count +:+ " lines";
         "After: " +:+ count +:+ " lines"].
Proof.
  apply (routes_second_run
           {[ Routes.path :=
                Routes.text ["import express";
                             "// CSP Violation Report Endpoint";
                             "app.post(...)"] ]}
           (Routes.text ["import express"; "// CSP Violation Report Endpoint";
                         "app.post(...)"])).
  vm_compute. reflexivity.
Defined.

(** * The comment cleaner *)

Lemma contains_unfold (marker s : string) :
  Text.contains marker s
  = String.prefix marker s
    || match s with
       | EmptyString => false
       | String _ rest => Text.contains marker rest
       end.
Proof. destruct s; reflexivity. Qed.

Lemma contains_head (marker s : string) :
  Text.contains marker s = false -> String.prefix marker s = false.
Proof.
  rewrite contains_unfold. intros H. apply orb_false_elim in H. apply H.
Qed.

Lemma contains_tail (marker : string) (c : Ascii.ascii) (rest : string) :
  Text.contains marker (String c rest) = false ->
  Text.contains marker rest = false.
Proof.
  rewrite contains_unfold. intros H. apply orb_false_elim in H. apply H.
Qed.

Lemma prefix_nil (s : string) : String.prefix EmptyString s = true.
Proof. destruct s; reflexivity. Qed.

Lemma prefix_cons (a b : Ascii.ascii) (m s : string) :
  String.prefix (String a m) (String b s)
  = if Ascii.ascii_dec a b then String.prefix m s else false.
Proof. cbn [String.prefix]. destruct (Ascii.ascii_dec a b); reflexivity. Qed.

Lemma prefix_app_l (m1 m2 s : string) :
  String.prefix (m1 +:+ m2) s = true -> String.prefix m1 s = true.
Proof.
  revert s. induction m1 as [| a m1 IH]; intros s; [intros _; apply prefix_nil |].
  change (String a m1 +:+ m2) with (String a (m1 +:+ m2)).
  destruct s as [| c s]; [discriminate |]. rewrite !prefix_cons.
  destruct (Ascii.ascii_dec a c); [apply IH | discriminate].
Qed.

Lemma prefix_app (m s : string) : String.prefix m (m +:+ s) = true.
Proof.
  induction m as [| a m IH]; [apply prefix_nil |].
  change (String a m +:+ s) with (String a (m +:+ s)). rewrite prefix_cons.
  destruct (Ascii.ascii_dec a a); [exact IH | congruence].
Qed.

Lemma contains_app (pre m s : string) :
  Text.contains m (pre +:+ m +:+ s) = true.
Proof.
  induction pre as [| c pre IH].
  - change (EmptyString +:+ m +:+ s) with (m +:+ s).
    rewrite contains_unfold, prefix_app. reflexivity.
  - change (String c pre +:+ m +:+ s) with (String c (pre +:+ m +:+ s)).
    rewrite contains_unfold, IH. apply orb_true_r.
Qed.

(** Texts the substitutions leave alone. *)

Lemma remove_blocks_no_end (s : string) :
  Text.contains "*/" s = false -> Comments.remove_blocks Comments.Outside s = s.
Proof.
  induction s as [| c s IH]; [reflexivity |]. intros H.
  cbn [Comments.remove_blocks].
  assert (Comments.opens (String c s) = false) as ->.
  { unfold Comments.opens. destruct s as [| c' r]; [reflexivity |].
    rewrite (contains_tail _ _ _ (contains_tail _ _ _ H)). apply andb_false_r. }
  f_equal. apply IH, (contains_tail _ _ _ H).
Qed.

Lemma drop_orphans_no_marker (s : string) :
  Text.contains Comments.orphan_marker s = false ->
  Comments.drop_orphans false s = s.
Proof.
  induction s as [| c s IH]; [reflexivity |]. intros H.
  cbn [Comments.drop_orphans]. rewrite (contains_head _ _ H). cbn [andb].
  f_equal. apply IH, (contains_tail _ _ _ H).
Qed.

Lemma collapse_no_run (s : string) :
  Text.contains Comments.blank_run s = false -> Comments.collapse s = s.
Proof.
  induction s as [| c s IH]; [reflexivity |]. intros H.
  cbn [Comments.collapse]. rewrite (contains_head _ _ H).
  f_equal. apply IH, (contains_tail _ _ _ H).
Qed.

(** What [collapse] leaves. *)

Lemma collapse_one (s : string) :
  String.prefix (String Text.newline EmptyString) (Comments.collapse s) = true ->
  String.prefix (String Text.newline EmptyString) s = true.
Proof.
  destruct s as [| c r]; [intros H; exact H |]. cbn [Comments.collapse].
  destruct (String.prefix Comments.blank_run (String c r)) eqn:E.
  - intros _.
    apply (prefix_app_l (String Text.newline EmptyString)
             (String Text.newline (String Text.newline EmptyString))), E.
  - rewrite !prefix_cons, !prefix_nil. intros H; exact H.
Qed.

Lemma collapse_two (s : string) :
  String.prefix (String Text.newline (String Text.newline EmptyString))
    (Comments.collapse s) = true ->
  String.prefix (String Text.newline (String Text.newline EmptyString)) s = true.
Proof.
  destruct s as [| c r]; [intros H; exact H |]. cbn [Comments.collapse].
  destruct (String.prefix Comments.blank_run (String c r)) eqn:E.
  - intros _.
    apply (prefix_app_l (String Text.newline (String Text.newline EmptyString))
             (String Text.newline EmptyString)), E.
  - rewrite !prefix_cons. destruct (Ascii.ascii_dec Text.newline c);
      [apply collapse_one | discriminate].
Qed.

Lemma collapse_three (s : string) :
  String.prefix Comments.blank_run (Comments.collapse s) = false.
Proof.
  induction s as [| c r IH]; [reflexivity |]. cbn [Comments.collapse].
  destruct (String.prefix Comments.blank_run (String c r)) eqn:E; [exact IH |].
  unfold Comments.blank_run in E |- *. rewrite prefix_cons in E |- *.
  destruct (Ascii.ascii_dec Text.newline c); [| reflexivity].
  apply not_true_is_false. intros F. apply collapse_two in F. congruence.
Qed.

Lemma collapse_no_blank_run (s : string) :
  Text.contains Comments.blank_run (Comments.collapse s) = false.
Proof.
  induction s as [| c r IH]; [reflexivity |].
  pose proof (collapse_three (String c r)) as H. cbn [Comments.collapse] in H |- *.
  destruct (String.prefix Comments.blank_run (String c r)); [exact IH |].
  rewrite contains_unfold, H, IH. reflexivity.
Qed.

(** No substitution adds a newline. *)

Lemma count_remove_blocks (m : Comments.mode) (s : string) :
  (Comments.count_newlines (Comments.remove_blocks m s)
   <= Comments.count_newlines s)%nat.
Proof.
  revert m. induction s as [| c s IH]; intros m; [reflexivity |].
  pose proof (IH Comments.Outside). pose proof (IH Comments.Opening).
  pose proof (IH Comments.Inside). pose proof (IH Comments.Closing).
  destruct m; cbn [Comments.remove_blocks]; repeat case_match;
    cbn [Comments.count_newlines]; lia.
Qed.

Lemma count_drop_orphans (dropping : bool) (s : string) :
  (Comments.count_newlines (Comments.drop_orphans dropping s)
   <= Comments.count_newlines s)%nat.
Proof.
  revert dropping. induction s as [| c s IH]; intros dropping; [reflexivity |].
  pose proof (IH true). pose proof (IH false).
  pose proof (IH (negb (Ascii.eqb c Text.newline))).
  cbn [Comments.drop_orphans]. repeat case_match;
    cbn [Comments.count_newlines]; lia.
Qed.

Lemma count_collapse (s : string) :
  (Comments.count_newlines (Comments.collapse s)
   <= Comments.count_newlines s)%nat.
Proof.
  induction s as [| c s IH]; [reflexivity |].
  cbn [Comments.collapse]. case_match; cbn [Comments.count_newlines]; lia.
Qed.

Lemma count_cleaned (content : string) :
  (Comments.count_newlines (Comments.cleaned content)
   <= Comments.count_newlines content)%nat.
Proof.
  unfold Comments.cleaned.
  pose proof (count_collapse
                (Comments.drop_orphans false
                   (Comments.remove_blocks Comments.Outside content))).
  pose proof (count_drop_orphans false
                (Comments.remove_blocks Comments.Outside content)).
  pose proof (count_remove_blocks Comments.Outside content). lia.
Qed.

(** One comment. *)

Lemma append_cons (c : Ascii.ascii) (m s : string) :
  String c m +:+ s = String c (m +:+ s).
Proof. reflexivity. Qed.

Lemma append_nil (s : string) : EmptyString +:+ s = s.
Proof. reflexivity. Qed.

Ltac same_char :=
  match goal with
  | |- context [Ascii.ascii_dec ?a ?a] =>
      destruct (Ascii.ascii_dec a a) as [_ | ne]; [| exfalso; apply ne; reflexivity]
  end.

Lemma remove_blocks_open (s : string) :
  Text.contains "*/" s = true ->
  Comments.remove_blocks Comments.Outside ("/*" +:+ s)
  = Comments.remove_blocks Comments.Inside s.
Proof.
  intros H. rewrite !append_cons, append_nil.
  cbn [Comments.remove_blocks Comments.opens].
  rewrite H, !prefix_cons, prefix_nil. do 2 same_char. reflexivity.
Qed.

Lemma remove_blocks_close (s : string) :
  Comments.remove_blocks Comments.Inside ("*/" +:+ s)
  = Comments.remove_blocks Comments.Outside s.
Proof.
  rewrite !append_cons, append_nil. cbn [Comments.remove_blocks].
  rewrite !prefix_cons, prefix_nil. do 2 same_char. reflexivity.
Qed.

Lemma remove_blocks_inside (body s : string) :
  Text.contains "*/" body = false ->
  Comments.remove_blocks Comments.Inside (body +:+ "*/" +:+ s)
  = Comments.remove_blocks Comments.Outside s.
Proof.
  induction body as [| c body IH]; intros H; [apply remove_blocks_close |].
  rewrite append_cons. cbn [Comments.remove_blocks].
  assert (String.prefix "*/" (String c (body +:+ "*/" +:+ s)) = false) as ->.
  { pose proof (contains_head _ _ H) as P.
    rewrite prefix_cons in P |- *.
    destruct (Ascii.ascii_dec _ c); [| reflexivity].
    destruct body as [| c' body].
    - rewrite append_nil, append_cons, prefix_cons.
      destruct (Ascii.ascii_dec _ _) as [E | _]; [discriminate E | reflexivity].
    - rewrite append_cons. rewrite prefix_cons in P |- *.
      rewrite prefix_nil in P |- *. exact P. }
  apply IH, (contains_tail _ _ _ H).
Qed.

Lemma remove_blocks_outside (pre s : string) :
  Text.contains "/*" pre = false ->
  String.prefix "*" s = false ->
  Comments.remove_blocks Comments.Outside (pre +:+ s)
  = pre +:+ Comments.remove_blocks Comments.Outside s.
Proof.
  intros H Hs. induction pre as [| c pre IH]; [reflexivity |].
  rewrite !append_cons. cbn [Comments.remove_blocks].
  assert (Comments.opens (String c (pre +:+ s)) = false) as ->.
  { unfold Comments.opens.
    destruct (pre +:+ s) as [| c' r] eqn:E; [reflexivity |].
    assert (String.prefix "/*" (String c (String c' r)) = false) as ->;
      [| reflexivity].
    pose proof (contains_head _ _ H) as P.
    rewrite prefix_cons in P |- *.
    destruct (Ascii.ascii_dec _ c); [| reflexivity].
    destruct pre as [| c'' pre].
    - rewrite append_nil in E. rewrite <- E. exact Hs.
    - rewrite append_cons in E. injection E as -> _.
      rewrite prefix_cons in P |- *. rewrite prefix_nil in P |- *. exact P. }
  f_equal. apply IH, (contains_tail _ _ _ H).
Qed.

(** X22.  A text with no star-slash, no orphan marker and no three
    newlines in a row is written back as it is, with a reduction of 0
    reported; in particular a comment that is opened and never closed is
    kept, to the end of the file. *)
Theorem comments_untouched (files : gmap string string) (content : string) :
  files !! Comments.path = Some content ->
  Text.contains "*/" content = false ->
  Text.contains Comments.orphan_marker content = false ->
  Text.contains Comments.blank_run content = false ->
  let count := pretty (Z.of_nat (Comments.count_newlines content)) in
  Comments.clean_comments files
  = Text.Finished files
      ["OK: Blocs commentes supprimes";
       "Lignes avant: " +:+ count;
       "Lignes après: " +:+ count;
       "Réduction: 0 lignes"].
Proof.
  intros E H1 H2 H3. cbn zeta. unfold Comments.clean_comments, Comments.cleaned.
  rewrite E, (remove_blocks_no_end _ H1), (drop_orphans_no_marker _ H2),
    (collapse_no_run _ H3), (insert_id _ _ _ E), Z.sub_diag.
  reflexivity.
Qed.

Lemma comments_untouched_witness :
  let content := Routes.text ["import express"; "/* never closed"; "app.listen()"] in
  let files : gmap string string := {[ Comments.path := content ]} in
  let count := pretty (Z.of_nat (Comments.count_newlines content)) in
  Comments.clean_comments files
  = Text.Finished files
      ["OK: Blocs commentes supprimes";
       "Lignes avant: " +:+ count;
       "Lignes après: " +:+ count;
       "Réduction: 0 lignes"].
Proof.
  apply (comments_untouched
           {[ Comments.path :=
                Routes.text ["import express"; "/* never closed"; "app.listen()"] ]}
           (Routes.text ["import express"; "/* never closed"; "app.listen()"]));
    vm_compute; reflexivity.
Defined.

(** X23.  Whatever the file holds, the text written has no three newlines
    in a row, it has no more newlines than the text read, and the
    reduction reported is not negative. *)
Theorem comments_no_blank_run (content : string) :
  Text.contains Comments.blank_run (Comments.cleaned content) = false /\
  0 <= Z.of_nat (Comments.count_newlines content)
       - Z.of_nat (Comments.count_newlines (Comments.cleaned content)).
Proof.
  split; [apply collapse_no_blank_run |].
  pose proof (count_cleaned content). lia.
Qed.

(** X24.  The first comment of a text goes as a whole, from its slash-star
    to the first star-slash behind it; what stands before it is kept, and
    the scan goes on behind it. *)
Theorem comments_first_block (pre body post : string) :
  Text.contains "/*" pre = false ->
  Text.contains "*/" body = false ->
  Comments.remove_blocks Comments.Outside
    (pre +:+ "/*" +:+ body +:+ "*/" +:+ post)
  = pre +:+ Comments.remove_blocks Comments.Outside post.
Proof.
  intros Hpre Hbody.
  rewrite (remove_blocks_outside _ _ Hpre) by reflexivity.
  rewrite remove_blocks_open by apply contains_app.
  rewrite (remove_blocks_inside _ _ Hbody). reflexivity.
Qed.

Lemma comments_first_block_witness :
  Comments.remove_blocks Comments.Outside
    ("app.use(x); /" +:+ "/*" +:+ " old / route * " +:+ "*/" +:+ " next(); /* b */")
  = "app.use(x); /" +:+ Comments.remove_blocks Comments.Outside " next(); /* b */".
Proof.
  apply (comments_first_block "app.use(x); /" " old / route * " " next(); /* b */");
    reflexivity.
Defined.
